(** * InkyPi custom weather plugin: a shallow embedding and its properties

    The embedded program is [src/plugins/weather_custom/weather_custom.py]:
    the [Weather] plugin fetches a forecast and an air-quality document from
    Open-Meteo and maps the decoded JSON to the fields of an HTML template.

    Python objects decoded from JSON are the inductive [value]; exceptions are
    the [Raise] branch of [result]; HTTP requests, log records and the call of
    the renderer are events of a trace carried by the writer monad [M]. *)

From Stdlib Require Import ZArith NArith QArith Qabs DecimalString.
From Stdlib Require String Ascii.
From stdpp Require Import base option list gmap strings.

Set Warnings "-register-all".
Local Open Scope Z_scope.

(** ** Python objects *)

(** A Python [float]: sign and magnitude of a finite value (so that [-0.0] is
    told from [0.0]), or one of the special values.  Every finite double is
    [FFinite neg num den] with [den] a power of two. *)
Inductive pyfloat :=
| FFinite (neg : bool) (num : N) (den : positive)
| FNan
| FInf (neg : bool).

(** What [json.loads] builds: [None], [bool], [int], [float], [str], [list]
    and [dict] with [str] keys.  A [str] is the string of its bytes, so [len]
    and indexing of a [str] are those of Python on ASCII text. *)
Inductive value :=
| VNone
| VBool (b : bool)
| VInt (z : Z)
| VFloat (f : pyfloat)
| VStr (s : string)
| VList (l : list value)
| VDict (d : gmap string value).

Inductive exn :=
| KeyError
| IndexError
| TypeError
| ValueError
| OverflowError
| AttributeError
| RuntimeError (msg : string)
| LibraryError (name : string).

(** ** Exceptions: the [result] monad *)

Inductive result (A : Type) :=
| Ok (a : A)
| Raise (e : exn).
Arguments Ok {A} a.
Arguments Raise {A} e.

#[global] Instance result_ret : MRet result := λ A a, Ok a.
#[global] Instance result_bind : MBind result := λ A B k r,
  match r with
  | Ok a => k a
  | Raise e => Raise e
  end.

(** [for i in range(lo, hi): acc = body(i, acc)], leaving at the first
    exception. *)
Definition for_range {A} (lo hi : nat) (body : nat → A → result A) (init : A) : result A :=
  fold_left (fun acc i => a ← acc ; body i a) (seq lo (hi - lo)) (Ok init).

(** The list comprehension counterpart, used to describe what a loop that
    only appends has built. *)
Fixpoint mapR {A B} (f : A → result B) (l : list A) : result (list B) :=
  match l with
  | [] => Ok []
  | x :: l' => y ← f x ; ys ← mapR f l' ; Ok (y :: ys)
  end.

(** ** Builtins on objects *)

Definition float_value (neg : bool) (num : N) (den : positive) : Q :=
  (if neg then - Z.of_N num else Z.of_N num) # den.

(** The real number a finite numeric object stands for ([bool] is an [int]). *)
Definition numeric_value (v : value) : option Q :=
  match v with
  | VBool b => Some (inject_Z (Z.b2z b))
  | VInt z => Some (inject_Z z)
  | VFloat (FFinite neg num den) => Some (float_value neg num den)
  | _ => None
  end.

(** [bool(v)], as [not v] and [if v:] test it. *)
Definition truthy (v : value) : bool :=
  match v with
  | VNone => false
  | VBool b => b
  | VInt z => negb (z =? 0)
  | VFloat (FFinite _ num _) => negb (num =? 0)%N
  | VFloat _ => true
  | VStr s => negb (String.eqb s "")
  | VList l => negb (Nat.eqb (length l) 0)
  | VDict d => negb (Nat.eqb (size d) 0)
  end.

(** [v[key]] with a [str] key. *)
Definition getitem (v : value) (key : string) : result value :=
  match v with
  | VDict d => match d !! key with Some x => Ok x | None => Raise KeyError end
  | _ => Raise TypeError
  end.

(** [v[i]] with a non-negative [int] index. *)
Definition getindex (v : value) (i : nat) : result value :=
  match v with
  | VList l => match l !! i with Some x => Ok x | None => Raise IndexError end
  | VStr s => match String.get i s with
              | Some c => Ok (VStr (String c EmptyString))
              | None => Raise IndexError
              end
  | VDict _ => Raise KeyError
  | _ => Raise TypeError
  end.

(** [len(v)]. *)
Definition py_len (v : value) : result nat :=
  match v with
  | VList l => Ok (length l)
  | VStr s => Ok (String.length s)
  | VDict d => Ok (size d)
  | _ => Raise TypeError
  end.

(** [d.get(key)] on a [dict]: [None] when the key is absent. *)
Definition dict_get (d : gmap string value) (key : string) : value :=
  default VNone (d !! key).

(** [v.get(key, dflt)]: only a [dict] has the method. *)
Definition value_get (v : value) (key : string) (dflt : value) : result value :=
  match v with
  | VDict d => Ok (default dflt (d !! key))
  | _ => Raise AttributeError
  end.

(** [v <= k] for an [int] literal [k]; comparing a float with an int is exact. *)
Definition le_int (v : value) (k : Z) : result bool :=
  match v with
  | VBool b => Ok (Z.b2z b <=? k)
  | VInt z => Ok (z <=? k)
  | VFloat (FFinite neg num den) =>
      Ok ((if neg then - Z.of_N num else Z.of_N num) <=? k * Z.pos den)
  | VFloat FNan => Ok false
  | VFloat (FInf neg) => Ok neg
  | _ => Raise TypeError
  end.

(** Nearest integer of [num/den], a tie going to the even neighbour. *)
Definition round_half_even (num : N) (den : positive) : N :=
  let q := (num / N.pos den)%N in
  let r := (num mod N.pos den)%N in
  match (2 * r ?= N.pos den)%N with
  | Lt => q
  | Gt => (q + 1)%N
  | Eq => if N.even q then q else (q + 1)%N
  end.

Definition signed (neg : bool) (n : N) : Z :=
  if neg then - Z.of_N n else Z.of_N n.

(** [round(v)] without [ndigits]: an [int]. *)
Definition py_round (v : value) : result Z :=
  match v with
  | VBool b => Ok (Z.b2z b)
  | VInt z => Ok z
  | VFloat (FFinite neg num den) => Ok (signed neg (round_half_even num den))
  | VFloat FNan => Raise ValueError
  | VFloat (FInf _) => Raise OverflowError
  | _ => Raise TypeError
  end.

(** [int(v)]: a float is truncated towards zero, a [str] is read as an
    integer literal by [int_of_str]. *)
Definition py_int (int_of_str : string → option Z) (v : value) : result Z :=
  match v with
  | VBool b => Ok (Z.b2z b)
  | VInt z => Ok z
  | VFloat (FFinite neg num den) => Ok (signed neg (num / N.pos den)%N)
  | VFloat FNan => Raise ValueError
  | VFloat (FInf _) => Raise OverflowError
  | VStr s => match int_of_str s with Some z => Ok z | None => Raise ValueError end
  | _ => Raise TypeError
  end.

(** Decimal digits of an [int], as [str] prints them. *)
Definition str_int (z : Z) : string := NilZero.string_of_int (Z.to_int z).

(** Two digits, zero padded ([%02d] on 0..99). *)
Definition pad2 (z : Z) : string :=
  if z <? 10 then "0" +:+ str_int z else str_int z.

(** [float(z)]: the nearest double, a tie to the even mantissa. *)
Definition float_of_int (z : Z) : result pyfloat :=
  let m := Z.abs_N z in
  let bits := N.size m in
  let m' :=
    if (bits <=? 53)%N then m
    else let unit := (2 ^ (bits - 53))%N in
         (round_half_even m (N.succ_pos (N.pred unit)) * unit)%N in
  if (N.size m' <=? 1024)%N then Ok (FFinite (z <? 0) m' 1) else Raise OverflowError.

(** [format(x, ".2f")] on a float: correctly rounded to two decimals. *)
Definition fixed2 (f : pyfloat) : string :=
  match f with
  | FFinite neg num den =>
      let c := round_half_even (num * 100) den in
      (if neg then "-" else "") +:+ str_int (Z.of_N (c / 100))
        +:+ "." +:+ pad2 (Z.of_N (c mod 100))
  | FNan => "nan"
  | FInf neg => if neg then "-inf" else "inf"
  end.

(** [f"{v:.2f}"]. *)
Definition format_2f (v : value) : result string :=
  match v with
  | VBool b => f ← float_of_int (Z.b2z b) ; Ok (fixed2 f)
  | VInt z => f ← float_of_int z ; Ok (fixed2 f)
  | VFloat f => Ok (fixed2 f)
  | VStr _ => Raise ValueError
  | _ => Raise TypeError
  end.

(** [s.lstrip(chars)]. *)
Fixpoint lstrip (chars : string) (s : string) : string :=
  match s with
  | EmptyString => EmptyString
  | String c s' =>
      if existsb (Ascii.eqb c) (String.list_ascii_of_string chars) then lstrip chars s' else s
  end.

(** [str(v)], as [str.format] substitutes a field without a format
    specification.  The digits of a float and the display of a container are
    the interpreter's, taken as [repr_other]. *)
Definition py_str (repr_other : value → string) (v : value) : string :=
  match v with
  | VNone => "None"
  | VBool b => if b then "True" else "False"
  | VInt z => str_int z
  | VStr s => s
  | _ => repr_other v
  end.

(** [v == s] for a [str] literal [s]. *)
Definition eq_str (v : value) (s : string) : bool :=
  match v with
  | VStr s' => String.eqb s' s
  | _ => false
  end.

(** ** Dates and [strftime] *)

(** The fields of a [datetime] that the formats below read. *)
Record datetime := {
  dt_year : Z;
  dt_month : Z;
  dt_day : Z;
  dt_hour : Z;
  dt_minute : Z
}.


Definition is_leap (y : Z) : bool :=
  (y mod 4 =? 0) && (negb (y mod 100 =? 0) || (y mod 400 =? 0)).

Definition days_before_year (y : Z) : Z :=
  let y' := y - 1 in y' * 365 + y' / 4 - y' / 100 + y' / 400.

Definition DAYS_BEFORE_MONTH : list Z :=
  [0; 31; 59; 90; 120; 151; 181; 212; 243; 273; 304; 334].

Definition days_before_month (y m : Z) : Z :=
  nth (Z.to_nat (m - 1)) DAYS_BEFORE_MONTH 0
  + (if (2 <? m) && is_leap y then 1 else 0).

Definition toordinal (dt : datetime) : Z :=
  days_before_year (dt_year dt) + days_before_month (dt_year dt) (dt_month dt) + dt_day dt.

(** [dt.weekday()]: Monday is 0. *)
Definition weekday (dt : datetime) : Z := (toordinal dt + 6) mod 7.

Definition DAY_NAMES : list string :=
  ["Monday"; "Tuesday"; "Wednesday"; "Thursday"; "Friday"; "Saturday"; "Sunday"].

Definition MONTH_NAMES : list string :=
  ["January"; "February"; "March"; "April"; "May"; "June"; "July"; "August";
   "September"; "October"; "November"; "December"].

(** The conversions of [strftime] in the C locale. *)
Definition strftime_A (dt : datetime) : string :=
  nth (Z.to_nat (weekday dt)) DAY_NAMES "".
Definition strftime_a (dt : datetime) : string :=
  String.substring 0 3 (strftime_A dt).
Definition strftime_B (dt : datetime) : string :=
  nth (Z.to_nat (dt_month dt - 1)) MONTH_NAMES "".
Definition strftime_d (dt : datetime) : string := pad2 (dt_day dt).
Definition hour12 (dt : datetime) : Z :=
  let h := dt_hour dt mod 12 in if h =? 0 then 12 else h.
Definition strftime_I (dt : datetime) : string := pad2 (hour12 dt).
Definition strftime_I_nopad (dt : datetime) : string := str_int (hour12 dt).
Definition strftime_M (dt : datetime) : string := pad2 (dt_minute dt).
Definition strftime_p (dt : datetime) : string :=
  if dt_hour dt <? 12 then "AM" else "PM".

(** ** The icon table *)

Definition WEATHER_CODE_ICONS : gmap Z string :=
  list_to_map
    [(0, "01d"); (1, "02d"); (2, "03d"); (3, "04d");
     (45, "50d"); (48, "50d");
     (51, "09d"); (53, "09d"); (55, "09d"); (56, "09d"); (57, "09d");
     (61, "10d"); (63, "10d"); (65, "10d");
     (66, "13d"); (67, "13d");
     (71, "13d"); (73, "13d"); (75, "13d"); (77, "13d");
     (80, "09d"); (81, "09d"); (82, "09d");
     (85, "13d"); (86, "13d");
     (95, "11d"); (96, "11d"); (99, "11d")].

(** [WEATHER_CODE_ICONS.get(code, dflt)].  A key is found by hash and
    equality: [True] is [1], an integral float is its integer, a container
    cannot be hashed. *)
Definition WEATHER_CODE_ICONS_get (code : value) (dflt : string) : result string :=
  match code with
  | VInt z => Ok (default dflt (WEATHER_CODE_ICONS !! z))
  | VBool b => Ok (default dflt (WEATHER_CODE_ICONS !! Z.b2z b))
  | VFloat (FFinite neg num den) =>
      if (num mod N.pos den =? 0)%N
      then Ok (default dflt (WEATHER_CODE_ICONS !! signed neg (num / N.pos den)%N))
      else Ok dflt
  | VFloat _ | VNone | VStr _ => Ok dflt
  | VList _ | VDict _ => Raise TypeError
  end.

(** ** What the template receives *)

Record forecast_entry := {
  fc_day : string;
  fc_high : Z;
  fc_low : Z;
  fc_icon : string
}.

Record hourly_entry := {
  h_time : string;
  h_temperature : Z;
  h_precipitiation : value
}.

Record data_point := {
  label : string;
  measurement : value;
  unit : string;
  icon : string
}.

Record template_params := {
  current_date : string;
  location : string;
  current_temperature : string;
  feels_like : string;
  temperature_unit : string;
  units : string;
  current_day_icon : string;
  forecast : list forecast_entry;
  hourly_forecast : list hourly_entry;
  data_points : list data_point;
  plugin_settings : option (gmap string value)
}.

(** ** Effects: the trace of a call *)

Inductive event :=
| HttpGet (url : string)
| LogError (msg : string) (content : string)
| LogWarning (msg : string) (e : exn)
| RenderImage (dimensions : list Z) (html css : string) (params : template_params).

(** A computation that has raised or returned, after the events of [trace]. *)
Record M (A : Type) := MkM {
  trace : list event;
  outcome : result A
}.
Arguments MkM {A} trace outcome.
Arguments trace {A} m.
Arguments outcome {A} m.

#[global] Instance M_ret : MRet M := λ A a, MkM [] (Ok a).
#[global] Instance M_bind : MBind M := λ A B k m,
  match outcome m with
  | Ok a => let r := k a in MkM (trace m ++ trace r) (outcome r)
  | Raise e => MkM (trace m) (Raise e)
  end.

Definition lift {A} (r : result A) : M A := MkM [] r.
Definition raise {A} (e : exn) : M A := MkM [] (Raise e).
Definition emit (ev : event) : M () := MkM [ev] (Ok ()).

(** ** The collaborators of the plugin *)

(** What [requests.get] returns: [response.ok], [response.content] and the
    result of [response.json()] ([None] when the body does not decode). *)
Record response := {
  ok : bool;
  content : string;
  json : option value
}.

(** The device configuration object handed to [generate_image]:
    [get_config key dflt] is [device_config.get_config(key, default=dflt)],
    the default being [None] when the call does not give one. *)
Record DeviceConfig := {
  get_resolution : list Z;
  get_config : string → value → value
}.

(** Code that the plugin calls and does not define: the base plugin
    ([get_plugin_dir], [render_image]), [requests], [pytz], [datetime] and the
    interpreter's own parsing and printing. *)
Class Externals := {
  tzinfo : Type;
  image : Type;
  get_plugin_dir : string → string;
  render_image : list Z → string → string → template_params → result (option image);
  requests_get : string → result response;
  pytz_timezone : value → result tzinfo;
  fromisoformat : string → option datetime;
  astimezone : datetime → tzinfo → result datetime;
  int_of_str : string → option Z;
  repr_other : value → string
}.

Definition OPEN_METEO_URL (lat long : string) : string :=
  "https://api.open-meteo.com/v1/forecast?"
  +:+ "latitude=" +:+ lat +:+ "&longitude=" +:+ long
  +:+ "&current=temperature_2m,relative_humidity_2m,precipitation,rain,wind_speed_10m,"
  +:+ "wind_direction_10m,pressure_msl"
  +:+ "&daily=temperature_2m_max,temperature_2m_min,sunrise,sunset,weathercode,uv_index_max"
  +:+ "&hourly=temperature_2m,rain"
  +:+ "&timezone=auto".

Definition AIR_QUALITY_URL (lat long : string) : string :=
  "https://air-quality-api.open-meteo.com/v1/air-quality?"
  +:+ "latitude=" +:+ lat +:+ "&longitude=" +:+ long
  +:+ "&hourly=european_aqi&timezone=auto".

(** ** The plugin *)

Section Weather.
Context `{Externals}.

(** [requests.get(url)]: the request is an event whatever comes back. *)
Definition http_get (url : string) : M response :=
  MkM [HttpGet url] (requests_get url).

(** [response.json()]. *)
Definition response_json (r : response) : result value :=
  match json r with
  | Some v => Ok v
  | None => Raise ValueError
  end.

(** [datetime.fromisoformat(v).astimezone(tz)]. *)
Definition localtime (v : value) (tz : tzinfo) : result datetime :=
  match v with
  | VStr s =>
      match fromisoformat s with
      | Some dt => astimezone dt tz
      | None => Raise ValueError
      end
  | _ => Raise TypeError
  end.

Definition icon_path (icon : string) : string :=
  get_plugin_dir ("icons/" +:+ icon +:+ ".png").

Definition get_weather_data (lat long : value) : M value :=
  let url := OPEN_METEO_URL (py_str repr_other lat) (py_str repr_other long) in
  response ← http_get url;
  if negb (ok response) then
    emit (LogError "Failed to fetch weather data: " (content response));;
    raise (RuntimeError "Failed to fetch weather data.")
  else lift (response_json response).

Definition get_air_quality (lat long : value) : M value :=
  let url := AIR_QUALITY_URL (py_str repr_other lat) (py_str repr_other long) in
  response ← http_get url;
  if negb (ok response) then
    emit (LogError "Failed to fetch air quality data: " (content response));;
    mret VNone
  else lift (response_json response).

Definition get_aqi_description (aqi : value) : result string :=
  c ← le_int aqi 20;
  if c : bool then Ok "Good" else
  c ← le_int aqi 40;
  if c : bool then Ok "Fair" else
  c ← le_int aqi 60;
  if c : bool then Ok "Moderate" else
  c ← le_int aqi 80;
  if c : bool then Ok "Poor" else
  Ok "Very Poor".

(** One turn of the loop of [parse_forecast]: the entry of daily index [i]. *)
Definition forecast_day (daily : value) (tz : tzinfo) (i : nat) : result forecast_entry :=
  times ← getitem daily "time";
  t ← getindex times i;
  dt ← localtime t tz;
  codes ← getitem daily "weathercode";
  code ← getindex codes i;
  icon ← WEATHER_CODE_ICONS_get code "01d";
  highs ← getitem daily "temperature_2m_max";
  high ← getindex highs i;
  high ← py_int int_of_str high;
  lows ← getitem daily "temperature_2m_min";
  low ← getindex lows i;
  low ← py_int int_of_str low;
  Ok {| fc_day := strftime_a dt; fc_high := high; fc_low := low;
        fc_icon := icon_path icon |}.

Definition parse_forecast (daily : value) (tz : tzinfo) : result (list forecast_entry) :=
  times ← getitem daily "time";
  n ← py_len times;
  for_range 1 (Nat.min n 6)
    (λ i forecast, e ← forecast_day daily tz i; Ok (forecast ++ [e])) [].

(** One turn of the loop of [parse_hourly]. *)
Definition hourly_hour (hourly : value) (tz : tzinfo) (i : nat) : result hourly_entry :=
  times ← getitem hourly "time";
  t ← getindex times i;
  dt ← localtime t tz;
  temps ← getitem hourly "temperature_2m";
  temp ← getindex temps i;
  temp ← py_round temp;
  rains ← getitem hourly "rain";
  rain ← getindex rains i;
  Ok {| h_time := strftime_I_nopad dt +:+ " " +:+ strftime_p dt;
        h_temperature := temp; h_precipitiation := rain |}.

Definition parse_hourly (hourly : value) (tz : tzinfo) : result (list hourly_entry) :=
  for_range 0 24
    (λ i hourly_list, e ← hourly_hour hourly tz i; Ok (hourly_list ++ [e])) [].

(** The body of the [try] block of [parse_data_points]. *)
Definition air_quality_point (air_quality : value) : result data_point :=
  hourly ← getitem air_quality "hourly";
  series ← getitem hourly "european_aqi";
  aqi ← getindex series 0;
  aqi_label ← get_aqi_description aqi;
  m ← py_int int_of_str aqi;
  Ok {| label := "Air Quality"; measurement := VInt m; unit := aqi_label;
        icon := get_plugin_dir "icons/aqi.png" |}.

(** The seven points that [parse_data_points] builds before it looks at the
    air quality. *)
Definition base_data_points (current daily : value) (tz : tzinfo) : result (list data_point) :=
  sunrises ← getitem daily "sunrise";
  sunrise ← getindex sunrises 0;
  sunrise_dt ← localtime sunrise tz;
  sunsets ← getitem daily "sunset";
  sunset ← getindex sunsets 0;
  sunset_dt ← localtime sunset tz;
  wind ← getitem current "wind_speed_10m";
  wind ← py_round wind;
  humidity ← getitem current "relative_humidity_2m";
  pressure ← getitem current "pressure_msl";
  uvs ← getitem daily "uv_index_max";
  uv ← getindex uvs 0;
  rain ← getitem current "rain";
  Ok [ {| label := "Sunrise";
          measurement := VStr (lstrip "0" (strftime_I sunrise_dt +:+ ":" +:+ strftime_M sunrise_dt));
          unit := strftime_p sunrise_dt;
          icon := get_plugin_dir "icons/sunrise.png" |};
       {| label := "Sunset";
          measurement := VStr (lstrip "0" (strftime_I sunset_dt +:+ ":" +:+ strftime_M sunset_dt));
          unit := strftime_p sunset_dt;
          icon := get_plugin_dir "icons/sunset.png" |};
       {| label := "Wind"; measurement := VInt wind; unit := "km/h";
          icon := get_plugin_dir "icons/wind.png" |};
       {| label := "Humidity"; measurement := humidity; unit := "%";
          icon := get_plugin_dir "icons/humidity.png" |};
       {| label := "Pressure"; measurement := pressure; unit := "hPa";
          icon := get_plugin_dir "icons/pressure.png" |};
       {| label := "UV Index"; measurement := uv; unit := "";
          icon := get_plugin_dir "icons/uvi.png" |};
       {| label := "Rain"; measurement := rain; unit := "mm";
          icon := get_plugin_dir "icons/rain.png" |} ].

Definition parse_data_points (current daily : value) (tz : tzinfo) (air_quality : value)
  : M (list data_point) :=
  data_points ← lift (base_data_points current daily tz);
  if truthy air_quality then
    match air_quality_point air_quality with
    | Ok p => mret (data_points ++ [p])
    | Raise e => emit (LogWarning "Failed to parse AQI: " e);; mret data_points
    end
  else mret data_points.

Definition parse_weather_data (data air_quality : value) (tz : tzinfo) : M template_params :=
  current ← lift (getitem data "current");
  daily ← lift (getitem data "daily");
  time ← lift (getitem current "time");
  dt ← lift (localtime time tz);
  codes ← lift (getitem daily "weathercode");
  code ← lift (getindex codes 0);
  icon_code ← lift (WEATHER_CODE_ICONS_get code "01d");
  latitude ← lift (getitem data "latitude");
  latitude ← lift (format_2f latitude);
  longitude ← lift (getitem data "longitude");
  longitude ← lift (format_2f longitude);
  temperature ← lift (getitem current "temperature_2m");
  temperature ← lift (py_round temperature);
  forecast ← lift (parse_forecast daily tz);
  hourly ← lift (getitem data "hourly");
  hourly_forecast ← lift (parse_hourly hourly tz);
  data_points ← parse_data_points current daily tz air_quality;
  mret {| current_date := strftime_A dt +:+ ", " +:+ strftime_B dt +:+ " " +:+ strftime_d dt;
          location := latitude +:+ ", " +:+ longitude;
          current_temperature := str_int temperature;
          feels_like := "–";
          temperature_unit := "°C";
          units := "metric";
          current_day_icon := icon_path icon_code;
          forecast := forecast;
          hourly_forecast := hourly_forecast;
          data_points := data_points;
          plugin_settings := None |}.

(** [template_params["plugin_settings"] = settings]. *)
Definition set_plugin_settings (p : template_params) (settings : gmap string value)
  : template_params :=
  {| current_date := current_date p; location := location p;
     current_temperature := current_temperature p; feels_like := feels_like p;
     temperature_unit := temperature_unit p; units := units p;
     current_day_icon := current_day_icon p; forecast := forecast p;
     hourly_forecast := hourly_forecast p; data_points := data_points p;
     plugin_settings := Some settings |}.

Definition generate_image (settings : gmap string value) (device_config : DeviceConfig)
  : M image :=
  let lat := dict_get settings "latitude" in
  let long := dict_get settings "longitude" in
  if negb (truthy lat) || negb (truthy long) then
    raise (RuntimeError "Latitude and Longitude are required.")
  else
    weather_data ← get_weather_data lat long;
    air_quality_data ← get_air_quality lat long;
    let dimensions := get_resolution device_config in
    let dimensions :=
      if eq_str (get_config device_config "orientation" VNone) "vertical"
      then reverse dimensions else dimensions in
    timezone_str ← lift (value_get weather_data "timezone"
                           (get_config device_config "timezone" (VStr "UTC")));
    tz ← lift (pytz_timezone timezone_str);
    template_params ← parse_weather_data weather_data air_quality_data tz;
    let template_params := set_plugin_settings template_params settings in
    emit (RenderImage dimensions "weather.html" "weather.css" template_params);;
    image ← lift (render_image dimensions "weather.html" "weather.css" template_params);
    match image with
    | None => raise (RuntimeError "Failed to take screenshot, please check logs.")
    | Some img => mret img
    end.

End Weather.

(** [Weather.generate_settings_template]: the template of the base plugin,
    given here as [super_template], with the style settings switched on. *)
Definition generate_settings_template (super_template : gmap string value)
  : gmap string value :=
  <["style_settings" := VBool true]> super_template.

(** ** A concrete world to run the plugin in *)

Module Demo.

(** A JSON object from its members. *)
Definition obj (members : list (string * value)) : value :=
  VDict (list_to_map members).

Definition number (s : string) (start len : nat) : option Z :=
  Z.of_int <$> NilZero.int_of_string (String.substring start len s).

(** The timestamps Open-Meteo sends: [YYYY-MM-DDTHH:MM], or a bare date. *)
Definition parse_iso (s : string) : option datetime :=
  y ← number s 0 4; m ← number s 5 2; d ← number s 8 2;
  if bool_decide (String.length s = 10%nat ∧ String.substring 4 1 s = "-"
                  ∧ String.substring 7 1 s = "-")
  then Some {| dt_year := y; dt_month := m; dt_day := d; dt_hour := 0; dt_minute := 0 |}
  else if bool_decide (String.length s = 16%nat ∧ String.substring 4 1 s = "-"
                       ∧ String.substring 7 1 s = "-" ∧ String.substring 10 1 s = "T"
                       ∧ String.substring 13 1 s = ":")
  then h ← number s 11 2; n ← number s 14 2;
       Some {| dt_year := y; dt_month := m; dt_day := d; dt_hour := h; dt_minute := n |}
  else None.

(** The network answers the forecast request with [forecast] and any other
    request with [air]; the system clock is in the display timezone. *)
Definition world (forecast air : result response) : Externals := {|
  tzinfo := string;
  image := list Z;
  get_plugin_dir := λ p, "/usr/local/inkypi/src/plugins/weather_custom/" +:+ p;
  render_image := λ dims _ _ _, Ok (Some dims);
  requests_get := λ url,
    if String.prefix "https://api.open-meteo.com/" url then forecast else air;
  pytz_timezone := λ v,
    match v with VStr s => Ok s | _ => Raise (LibraryError "UnknownTimeZoneError") end;
  fromisoformat := parse_iso;
  astimezone := λ dt _, Ok dt;
  int_of_str := λ s, Z.of_int <$> NilZero.int_of_string s;
  repr_other := λ _, "<object>"
|}.

(** The double nearest to the decimal [num/den] (a tie to the even mantissa),
    as [json.loads] reads a number with a fraction; the values used here are
    far from the subnormal range. *)
Definition nearest_double (neg : bool) (num : N) (den : positive) : pyfloat :=
  if (num =? 0)%N then FFinite neg 0 1 else
  let at_least (b : Z) : bool :=
    if 0 <=? b then (N.pos den * 2 ^ Z.to_N b <=? num)%N
    else (N.pos den <=? num * 2 ^ Z.to_N (- b))%N in
  let b0 := Z.of_N (N.log2 num) - Z.of_N (N.log2 (N.pos den)) in
  let b := if at_least b0 then b0 else b0 - 1 in
  let k := 52 - b in
  if 0 <=? k then
    let s := (2 ^ Z.to_N k)%N in
    FFinite neg (round_half_even (num * s) den) (N.succ_pos (N.pred s))
  else
    let s := (2 ^ Z.to_N (- k))%N in
    FFinite neg (round_half_even num (den * N.succ_pos (N.pred s)) * s) 1.

Definition float (num : N) (den : positive) : value := VFloat (nearest_double false num den).
Definition negative (num : N) (den : positive) : value := VFloat (nearest_double true num den).

Definition hour_stamp (i : nat) : value :=
  VStr ("2024-01-05T" +:+ pad2 (Z.of_nat i) +:+ ":00").

Definition daily_times : value :=
  VList (VStr <$> ["2024-01-05"; "2024-01-06"; "2024-01-07"; "2024-01-08"; "2024-01-09";
                   "2024-01-10"; "2024-01-11"]).

(** Seven days; the sixth has a weather code that the table does not hold. *)
Definition daily_body : value :=
  obj [("time", daily_times);
       ("temperature_2m_max", VList [float 39 10; float 27 10; float 9 10;
                                     negative 15 10; VInt 0;
                                     float 12 10; float 31 10]);
       ("temperature_2m_min", VList [float 11 10; negative 4 10;
                                     negative 38 10;
                                     negative 61 10;
                                     negative 55 10;
                                     negative 29 10; float 2 10]);
       ("sunrise", VList (VStr <$> ["2024-01-05T08:16"; "2024-01-06T08:16";
                                    "2024-01-07T08:15"; "2024-01-08T08:15";
                                    "2024-01-09T08:14"; "2024-01-10T08:14";
                                    "2024-01-11T08:13"]));
       ("sunset", VList (VStr <$> ["2024-01-05T16:08"; "2024-01-06T16:09";
                                   "2024-01-07T16:10"; "2024-01-08T16:12";
                                   "2024-01-09T16:13"; "2024-01-10T16:14";
                                   "2024-01-11T16:16"]));
       ("weathercode", VList (VInt <$> [61; 3; 71; 73; 0; 100; 45]));
       ("uv_index_max", VList [float 85 100; float 9 10; float 1 1; float 11 10;
                               float 12 10; float 1 1; float 9 10])].

(** Twenty-four hours from midnight. *)
Definition hourly_body : value :=
  obj [("time", VList (hour_stamp <$> seq 0 24));
       ("temperature_2m", VList ((λ i, float (N.of_nat (5 * i)) 10) <$> seq 0 24));
       ("rain", VList ((λ i, float (N.of_nat i) 10) <$> seq 0 24))].

Definition current_body : value :=
  obj [("time", VStr "2024-01-05T14:30");
       ("temperature_2m", float 25 10);
       ("relative_humidity_2m", VInt 81);
       ("precipitation", float 0 1); ("rain", float 0 1);
       ("wind_speed_10m", float 115 10);
       ("wind_direction_10m", VInt 240);
       ("pressure_msl", float 10132 10)].

(** A forecast document, for the grid point nearest to 52.52 N, 13.41 E. *)
Definition forecast_body : value :=
  obj [("latitude", float 5252 100); ("longitude", float 13419998 1000000);
       ("timezone", VStr "Europe/Berlin");
       ("current", current_body); ("daily", daily_body); ("hourly", hourly_body)].

Definition air_body (aqi : value) : value :=
  obj [("latitude", float 525 10); ("longitude", float 135 10);
       ("hourly", obj [("time", VList [VStr "2024-01-05T00:00"]);
                       ("european_aqi", VList [aqi])])].

Definition good (body : value) : result response :=
  Ok {| ok := true; content := "{...}"; json := Some body |}.

Definition bad : result response :=
  Ok {| ok := false; content := "Service Unavailable"; json := None |}.

Definition settings (lat long : value) : gmap string value :=
  list_to_map [("latitude", lat); ("longitude", long)].

Definition device : DeviceConfig := {|
  get_resolution := [800; 480];
  get_config := λ key dflt,
    if String.eqb key "orientation" then VStr "horizontal" else dflt
|}.

End Demo.


(** * The vocabulary of the statements *)


(** [r] is an integer nearest to [q]. *)
Definition nearest (q : Q) (r : Z) : Prop :=
  (Qabs (inject_Z r - q) <= 1 # 2)%Q.

Definition is_render (ev : event) : bool :=
  match ev with RenderImage _ _ _ _ => true | _ => false end.

(** What [generate_image] raises when it misses a coordinate. *)
Definition missing_coordinates : exn :=
  RuntimeError "Latitude and Longitude are required.".


Section Vocabulary.
Context `{Externals}.

(** The addresses of the two requests. *)
Definition forecast_url (lat long : value) : string :=
  OPEN_METEO_URL (py_str repr_other lat) (py_str repr_other long).

Definition air_quality_url (lat long : value) : string :=
  AIR_QUALITY_URL (py_str repr_other lat) (py_str repr_other long).


(** The data of hourly index [i] is of the types the API documents. *)
Definition hour_well_formed (hourly : value) (tz : tzinfo) (i : nat) : Prop :=
  ∃ times s dt temps temp q rains rain,
    getitem hourly "time" = Ok times ∧ getindex times i = Ok (VStr s) ∧
    localtime (VStr s) tz = Ok dt ∧
    getitem hourly "temperature_2m" = Ok temps ∧ getindex temps i = Ok temp ∧
    numeric_value temp = Some q ∧
    getitem hourly "rain" = Ok rains ∧ getindex rains i = Ok rain.

End Vocabulary.

(** The demonstration worlds: both services up; the forecast service down;
    the air-quality service down, answering with a body that is not JSON, or
    unreachable. *)
Definition demo_all_up : Externals :=
  Demo.world (Demo.good Demo.forecast_body) (Demo.good (Demo.air_body (VInt 45))).
Definition demo_forecast_down : Externals :=
  Demo.world Demo.bad (Demo.good (Demo.air_body (VInt 45))).
Definition demo_air_down : Externals :=
  Demo.world (Demo.good Demo.forecast_body) Demo.bad.
Definition demo_air_garbled : Externals :=
  Demo.world (Demo.good Demo.forecast_body)
    (Ok {| ok := true; content := "<html>"; json := None |}).
Definition demo_air_unreachable : Externals :=
  Demo.world (Demo.good Demo.forecast_body) (Raise (LibraryError "ConnectionError")).

Definition demo_settings : gmap string value :=
  Demo.settings (VStr "52.52") (VStr "13.41").

(** What the template receives for the demonstration forecast when no
    air-quality document came. *)
Definition demo_params : template_params :=
  Eval vm_compute in
    match outcome (@parse_weather_data (Demo.world Demo.bad Demo.bad)
                     Demo.forecast_body VNone "Europe/Berlin") with
    | Ok p => p
    | Raise _ =>
        {| current_date := ""; location := ""; current_temperature := "";
           feels_like := ""; temperature_unit := ""; units := "";
           current_day_icon := ""; forecast := []; hourly_forecast := [];
           data_points := []; plugin_settings := None |}
    end.

(** ** Further vocabulary *)

Definition is_http (ev : event) : bool :=
  match ev with HttpGet _ => true | _ => false end.

Definition is_log_error (ev : event) : bool :=
  match ev with LogError _ _ => true | _ => false end.

(** The requests of a trace, in the order they were made. *)
Definition http_requests (t : list event) : list event := List.filter is_http t.

(** [bool], [int] and [float] objects: what [<=] compares with an [int]. *)
Definition is_number (v : value) : bool :=
  match v with
  | VBool _ | VInt _ | VFloat _ => true
  | _ => false
  end.

Definition AQI_LABELS : list string := ["Good"; "Fair"; "Moderate"; "Poor"; "Very Poor"].

(** The place of a band among [AQI_LABELS], from best to worst. *)
Definition aqi_rank (s : string) : nat :=
  if String.eqb s "Good" then 0
  else if String.eqb s "Fair" then 1
  else if String.eqb s "Moderate" then 2
  else if String.eqb s "Poor" then 3
  else 4.

(** The icon files that the table names. *)
Definition ICON_IDS : list string :=
  ["01d"; "02d"; "03d"; "04d"; "09d"; "10d"; "11d"; "13d"; "50d"].

(** A document with every list member cut after its first [k] entries. *)
Definition truncate_list (k : nat) (v : value) : value :=
  match v with
  | VList l => VList (take k l)
  | _ => v
  end.

Definition truncate_series (k : nat) (v : value) : value :=
  match v with
  | VDict d => VDict (truncate_list k <$> d)
  | _ => v
  end.

(** The label of an hour in the hourly forecast ([%-I %p]). *)
Definition hour_label (dt : datetime) : string :=
  strftime_I_nopad dt +:+ " " +:+ strftime_p dt.

Section Stages.
Context `{Externals}.

(** What [generate_image] does once both documents are fetched. *)
Definition render_stage (settings : gmap string value) (device_config : DeviceConfig)
    (weather_data air_quality_data : value) : M image :=
  let dimensions := get_resolution device_config in
  let dimensions :=
    if eq_str (get_config device_config "orientation" VNone) "vertical"
    then reverse dimensions else dimensions in
  timezone_str ← lift (value_get weather_data "timezone"
                         (get_config device_config "timezone" (VStr "UTC")));
  tz ← lift (pytz_timezone timezone_str);
  template_params ← parse_weather_data weather_data air_quality_data tz;
  let template_params := set_plugin_settings template_params settings in
  emit (RenderImage dimensions "weather.html" "weather.css" template_params);;
  image ← lift (render_image dimensions "weather.html" "weather.css" template_params);
  match image with
  | None => raise (RuntimeError "Failed to take screenshot, please check logs.")
  | Some img => mret img
  end.

(** The dimensions that [generate_image] hands to the renderer. *)
Definition render_dimensions (device_config : DeviceConfig) : list Z :=
  if eq_str (get_config device_config "orientation" VNone) "vertical"
  then reverse (get_resolution device_config) else get_resolution device_config.

(** What [generate_image] makes of the answer of the renderer. *)
Definition render_outcome (r : result (option image)) : result image :=
  match r with
  | Ok (Some img) => Ok img
  | Ok None => Raise (RuntimeError "Failed to take screenshot, please check logs.")
  | Raise e => Raise e
  end.

End Stages.

(** A device mounted upright, in a timezone of its own. *)
Definition demo_vertical : DeviceConfig := {|
  get_resolution := [800; 480];
  get_config := λ key dflt,
    if String.eqb key "orientation" then VStr "vertical"
    else if String.eqb key "timezone" then VStr "America/New_York"
    else dflt
|}.

(** The same device with another timezone in its configuration. *)
Definition demo_vertical_paris : DeviceConfig := {|
  get_resolution := [800; 480];
  get_config := λ key dflt,
    if String.eqb key "orientation" then VStr "vertical"
    else if String.eqb key "timezone" then VStr "Europe/Paris"
    else dflt
|}.

(** An air-quality document whose first AQI value is 20.5, and the point it
    gives. *)
Definition demo_fractional_air : value := Demo.air_body (VFloat (FFinite false 41 2)).

Definition demo_fractional_point : data_point :=
  {| label := "Air Quality"; measurement := VInt 20; unit := "Fair";
     icon := "/usr/local/inkypi/src/plugins/weather_custom/icons/aqi.png" |}.

(** An hourly document that ends after twenty-three hours. *)
Definition demo_short_hourly : value :=
  Demo.obj [("time", VList (Demo.hour_stamp <$> seq 0 23));
            ("temperature_2m", VList ((λ i, Demo.float (N.of_nat (5 * i)) 10) <$> seq 0 23));
            ("rain", VList ((λ i, Demo.float (N.of_nat i) 10) <$> seq 0 23))].

(** ** The zone of the process *)

(** The API sends timestamps without an offset ([&timezone=auto]: the wall
    clock at the location).  [datetime.fromisoformat] makes a naive datetime
    of such a stamp, and [astimezone(tz)] reads a naive datetime in the zone
    of the process before it converts it to [tz]. *)

Section Stamps.
Context `{Externals}.



End Stamps.










(** * Properties *)

(** ** The monads *)

Lemma rbind_Ok_inv {A B} (r : result A) (k : A → result B) (b : B) :
  r ≫= k = Ok b → ∃ a, r = Ok a ∧ k a = Ok b.
Proof. destruct r as [a|e]; simpl; [eauto | discriminate]. Qed.

Lemma M_bind_outcome {A B} (m : M A) (k : A → M B) :
  outcome (m ≫= k) = match outcome m with Ok a => outcome (k a) | Raise e => Raise e end.
Proof. unfold mbind, M_bind. destruct (outcome m); reflexivity. Qed.

Lemma M_bind_trace {A B} (m : M A) (k : A → M B) :
  trace (m ≫= k) = match outcome m with Ok a => trace m ++ trace (k a) | Raise _ => trace m end.
Proof. unfold mbind, M_bind. destruct (outcome m); reflexivity. Qed.

Lemma M_bind_lift_outcome {A B} (r : result A) (k : A → M B) :
  outcome (lift r ≫= k) = match r with Ok a => outcome (k a) | Raise e => Raise e end.
Proof. rewrite M_bind_outcome. reflexivity. Qed.

Lemma M_bind_lift_trace {A B} (r : result A) (k : A → M B) :
  trace (lift r ≫= k) = match r with Ok a => trace (k a) | Raise _ => [] end.
Proof. rewrite M_bind_trace. destruct r; reflexivity. Qed.

(** Splits the first bind of a computation known to return. *)
Ltac inv_bind H :=
  let a := fresh "a" in
  let E := fresh "E" in
  apply rbind_Ok_inv in H; destruct H as (a & E & H).

(** ** Loops that append *)

Lemma fold_left_Raise {A} (body : nat → A → result A) (l : list nat) (e : exn) :
  fold_left (λ acc i, a ← acc; body i a) l (Raise e) = Raise e.
Proof. induction l as [|i l IH]; simpl; [reflexivity | exact IH]. Qed.

Lemma fold_left_append {A} (f : nat → result A) (l : list nat) (init : list A) :
  fold_left (λ acc i, a ← acc; e ← f i; Ok (a ++ [e])) l (Ok init)
  = ys ← mapR f l; Ok (init ++ ys).
Proof.
  revert init. induction l as [|i l IH]; intros init; simpl.
  - by rewrite app_nil_r.
  - destruct (f i) as [e|err]; simpl.
    + rewrite IH. destruct (mapR f l) as [ys|err]; simpl; [|reflexivity].
      by rewrite <- app_assoc.
    + apply fold_left_Raise.
Qed.

Lemma for_range_append {A} (f : nat → result A) (lo hi : nat) :
  for_range lo hi (λ i acc, e ← f i; Ok (acc ++ [e])) [] = mapR f (seq lo (hi - lo)).
Proof.
  unfold for_range. rewrite fold_left_append.
  destruct (mapR f (seq lo (hi - lo))); reflexivity.
Qed.





(** ** Rounding and truncation *)

Lemma round_half_even_nearest (num : N) (den : positive) :
  2 * Z.abs (Z.of_N (round_half_even num den) * Z.pos den - Z.of_N num) ≤ Z.pos den.
Proof.
  unfold round_half_even.
  pose proof (N.div_mod num (N.pos den) ltac:(discriminate)) as Hdm.
  pose proof (N.mod_lt num (N.pos den) ltac:(discriminate)) as Hlt.
  set (q := (num / N.pos den)%N) in *. set (r := (num mod N.pos den)%N) in *.
  clearbody q r. cbv zeta.
  destruct (N.compare_spec (2 * r) (N.pos den)) as [Heq|Hc|Hc];
    [destruct (N.even q)| |]; lia.
Qed.


Lemma py_round_nearest (v : value) (q : Q) (r : Z) :
  numeric_value v = Some q → py_round v = Ok r → nearest q r.
Proof.
  unfold nearest.
  destruct v as [|b|z|[neg num den| |]|s|l|d]; simpl; intros Hq Hr;
    try discriminate; inversion Hq; inversion Hr; subst; clear Hq Hr.
  - unfold Qle, Qabs, Qminus, Qplus, Qopp, inject_Z. simpl. lia.
  - unfold Qle, Qabs, Qminus, Qplus, Qopp, inject_Z. simpl. lia.
  - pose proof (round_half_even_nearest num den) as Hn.
    unfold Qle, Qabs, Qminus, Qplus, Qopp, inject_Z, float_value, signed. simpl.
    destruct neg; lia.
Qed.


(** ** Air-quality bands *)

Lemma le_int_numeric (v : value) (q : Q) (k : Z) :
  numeric_value v = Some q → le_int v k = Ok (Qle_bool q (inject_Z k)).
Proof.
  destruct v as [|b|z|[neg num den| |]|s|l|d]; simpl; intros Hq;
    try discriminate; inversion Hq; subst; clear Hq;
    unfold Qle_bool, float_value, inject_Z; simpl; by rewrite ?Z.mul_1_r.
Qed.

Lemma Qle_bool_false_lt (x y : Q) : Qle_bool x y = false ↔ (y < x)%Q.
Proof.
  rewrite <- not_true_iff_false, Qle_bool_iff. split.
  - apply Qnot_le_lt.
  - intros Hlt Hle. exact (Qlt_not_le _ _ Hlt Hle).
Qed.

(** C1: on every finite numeric AQI value [get_aqi_description] answers by
    the European bands with inclusive upper bounds: up to 20 "Good", up to 40
    "Fair", up to 60 "Moderate", up to 80 "Poor", above 80 "Very Poor"; so 45
    is "Moderate", 20 is "Good", 80 is "Poor" and 81 is "Very Poor". *)
Theorem get_aqi_description_bands :
  (∀ (v : value) (q : Q), numeric_value v = Some q →
     ((q <= 20)%Q → get_aqi_description v = Ok "Good") ∧
     ((20 < q)%Q → (q <= 40)%Q → get_aqi_description v = Ok "Fair") ∧
     ((40 < q)%Q → (q <= 60)%Q → get_aqi_description v = Ok "Moderate") ∧
     ((60 < q)%Q → (q <= 80)%Q → get_aqi_description v = Ok "Poor") ∧
     ((80 < q)%Q → get_aqi_description v = Ok "Very Poor")) ∧
  get_aqi_description (VInt 45) = Ok "Moderate" ∧
  get_aqi_description (VInt 20) = Ok "Good" ∧
  get_aqi_description (VInt 80) = Ok "Poor" ∧
  get_aqi_description (VInt 81) = Ok "Very Poor".
Proof.
  split; [|repeat split; reflexivity].
  intros v q Hq. unfold get_aqi_description.
  rewrite !(le_int_numeric v q) by exact Hq. unfold inject_Z. simpl.
  repeat split.
  - intros H20. apply Qle_bool_iff in H20. by rewrite H20.
  - intros H20 H40. apply Qle_bool_false_lt in H20. apply Qle_bool_iff in H40.
    by rewrite H20, H40.
  - intros H40 H60.
    assert (20 < q)%Q as H20 by (eapply Qlt_trans; [|exact H40]; reflexivity).
    apply Qle_bool_false_lt in H20, H40. apply Qle_bool_iff in H60.
    by rewrite H20, H40, H60.
  - intros H60 H80.
    assert (40 < q)%Q as H40 by (eapply Qlt_trans; [|exact H60]; reflexivity).
    assert (20 < q)%Q as H20 by (eapply Qlt_trans; [|exact H40]; reflexivity).
    apply Qle_bool_false_lt in H20, H40, H60. apply Qle_bool_iff in H80.
    by rewrite H20, H40, H60, H80.
  - intros H80.
    assert (60 < q)%Q as H60 by (eapply Qlt_trans; [|exact H80]; reflexivity).
    assert (40 < q)%Q as H40 by (eapply Qlt_trans; [|exact H60]; reflexivity).
    assert (20 < q)%Q as H20 by (eapply Qlt_trans; [|exact H40]; reflexivity).
    apply Qle_bool_false_lt in H20, H40, H60, H80.
    by rewrite H20, H40, H60, H80.
Qed.

(** The float 30.5 lies in the second band. *)
Lemma get_aqi_description_bands_witness :
  get_aqi_description (VFloat (FFinite false 61 2)) = Ok "Fair".
Proof.
  apply (proj1 (proj2 (proj1 get_aqi_description_bands
                         (VFloat (FFinite false 61 2)) (61 # 2)%Q eq_refl))).
  - reflexivity.
  - unfold Qle. simpl. lia.
Defined.

(** Outside the numbers: [nan] compares false with every bound, a value that
    is not a number cannot be compared. *)
Lemma get_aqi_description_not_numeric :
  get_aqi_description (VFloat FNan) = Ok "Very Poor" ∧
  get_aqi_description VNone = Raise TypeError ∧
  get_aqi_description (VStr "45") = Raise TypeError.
Proof. repeat split; reflexivity. Qed.

Section Properties.
Context `{Externals}.

(** ** What a successful [parse_weather_data] has read *)

Ltac step_lift H :=
  rewrite M_bind_lift_outcome in H;
  match type of H with
  | match ?r with Ok _ => _ | Raise _ => _ end = Ok _ =>
      destruct r eqn:?; [|discriminate H]
  end.

Lemma parse_weather_data_Ok (data air_quality : value) (tz : tzinfo) (p : template_params) :
  outcome (parse_weather_data data air_quality tz) = Ok p →
  ∃ current daily codes code icon_code latitude longitude lat_s long_s,
    getitem data "current" = Ok current ∧
    getitem data "daily" = Ok daily ∧
    getitem daily "weathercode" = Ok codes ∧
    getindex codes 0 = Ok code ∧
    WEATHER_CODE_ICONS_get code "01d" = Ok icon_code ∧
    getitem data "latitude" = Ok latitude ∧
    format_2f latitude = Ok lat_s ∧
    getitem data "longitude" = Ok longitude ∧
    format_2f longitude = Ok long_s ∧
    parse_forecast daily tz = Ok (forecast p) ∧
    outcome (parse_data_points current daily tz air_quality) = Ok (data_points p) ∧
    current_day_icon p = icon_path icon_code ∧
    location p = lat_s +:+ ", " +:+ long_s.
Proof.
  unfold parse_weather_data. intros Hp.
  repeat step_lift Hp.
  rewrite M_bind_outcome in Hp.
  destruct (outcome (parse_data_points _ _ _ _)) as [dps|] eqn:Hdps; [|discriminate Hp].
  unfold mret, M_ret in Hp. cbn [outcome] in Hp. injection Hp as <-.
  cbn [forecast data_points current_day_icon location].
  do 9 eexists. repeat split; try eassumption; reflexivity.
Qed.

(** ** The icon of the current day *)

(** C2: the icon of the current day is the entry of [daily.weathercode[0]] in
    the constant table [WEATHER_CODE_ICONS]; an integer code that the table
    does not hold, such as 100, gives "01d", which is the icon of code 0
    (clear sky); a code that the table holds gives its own icon, and for 61
    that is the rain icon "10d", not the default. *)
Theorem current_day_icon_lookup :
  (∀ (data air_quality : value) (tz : tzinfo) (p : template_params),
     outcome (parse_weather_data data air_quality tz) = Ok p →
     ∃ daily codes code icon_code,
       getitem data "daily" = Ok daily ∧
       getitem daily "weathercode" = Ok codes ∧
       getindex codes 0 = Ok code ∧
       WEATHER_CODE_ICONS_get code "01d" = Ok icon_code ∧
       current_day_icon p = icon_path icon_code) ∧
  (∀ z : Z, WEATHER_CODE_ICONS !! z = None →
     WEATHER_CODE_ICONS_get (VInt z) "01d" = Ok "01d") ∧
  (∀ (z : Z) (icon : string), WEATHER_CODE_ICONS !! z = Some icon →
     WEATHER_CODE_ICONS_get (VInt z) "01d" = Ok icon) ∧
  WEATHER_CODE_ICONS !! 0 = Some "01d" ∧
  WEATHER_CODE_ICONS !! 100 = None ∧
  WEATHER_CODE_ICONS_get (VInt 100) "01d" = Ok "01d" ∧
  WEATHER_CODE_ICONS_get (VInt 61) "01d" = Ok "10d" ∧
  "10d" ≠ "01d".
Proof.
  split; [|split; [|split]].
  - intros data air_quality tz p Hp.
    destruct (parse_weather_data_Ok _ _ _ _ Hp)
      as (current & daily & codes & code & icon_code & ? & ? & ? & ? & Hrest).
    destruct Hrest as (? & ? & ? & ? & ? & ? & ? & ? & ? & ? & ? & ? & ?).
    exists daily, codes, code, icon_code. repeat split; assumption.
  - intros z Hz. unfold WEATHER_CODE_ICONS_get. rewrite Hz. reflexivity.
  - intros z icon Hz. unfold WEATHER_CODE_ICONS_get. rewrite Hz. reflexivity.
  - repeat split; try (vm_compute; reflexivity). discriminate.
Qed.

End Properties.

(** With code 61 for today, the demonstration forecast gets the rain icon. *)
Lemma current_day_icon_lookup_witness :
  ∃ daily codes code icon_code,
    getitem Demo.forecast_body "daily" = Ok daily ∧
    getitem daily "weathercode" = Ok codes ∧
    getindex codes 0 = Ok code ∧
    WEATHER_CODE_ICONS_get code "01d" = Ok icon_code ∧
    current_day_icon demo_params = @icon_path (Demo.world Demo.bad Demo.bad) icon_code.
Proof.
  apply (proj1 (@current_day_icon_lookup (Demo.world Demo.bad Demo.bad))
           Demo.forecast_body VNone "Europe/Berlin" demo_params).
  vm_compute. reflexivity.
Defined.

Example demo_current_day_icon :
  current_day_icon demo_params
  = "/usr/local/inkypi/src/plugins/weather_custom/icons/10d.png".
Proof. reflexivity. Qed.

Section Forecast.
Context `{Externals}.

(** ** The forecast of the coming days *)






Lemma parse_forecast_mapR (daily : value) (tz : tzinfo) (times : value) (n : nat) :
  getitem daily "time" = Ok times → py_len times = Ok n →
  parse_forecast daily tz = mapR (forecast_day daily tz) (seq 1 (Nat.min n 6 - 1)).
Proof.
  intros Ht Hn. unfold parse_forecast.
  rewrite Ht; cbn [mbind result_bind]. rewrite Hn; cbn [mbind result_bind].
  apply for_range_append.
Qed.


End Forecast.



Example demo_forecast :
  forecast demo_params
  = [ {| fc_day := "Sat"; fc_high := 2; fc_low := 0;
         fc_icon := "/usr/local/inkypi/src/plugins/weather_custom/icons/04d.png" |};
      {| fc_day := "Sun"; fc_high := 0; fc_low := -3;
         fc_icon := "/usr/local/inkypi/src/plugins/weather_custom/icons/13d.png" |};
      {| fc_day := "Mon"; fc_high := -1; fc_low := -6;
         fc_icon := "/usr/local/inkypi/src/plugins/weather_custom/icons/13d.png" |};
      {| fc_day := "Tue"; fc_high := 0; fc_low := -5;
         fc_icon := "/usr/local/inkypi/src/plugins/weather_custom/icons/01d.png" |};
      {| fc_day := "Wed"; fc_high := 1; fc_low := -2;
         fc_icon := "/usr/local/inkypi/src/plugins/weather_custom/icons/01d.png" |} ].
Proof. reflexivity. Qed.

Section Hourly.
Context `{Externals}.

(** ** The hourly forecast *)

Lemma py_round_numeric (v : value) (q : Q) :
  numeric_value v = Some q → ∃ r, py_round v = Ok r.
Proof.
  destruct v as [|b|z|[neg num den| |]|s|l|d]; simpl; intros Hq;
    try discriminate; eauto.
Qed.

Lemma hourly_hour_total (hourly : value) (tz : tzinfo) (i : nat) :
  hour_well_formed hourly tz i → ∃ e, hourly_hour hourly tz i = Ok e.
Proof.
  intros (times & s & dt & temps & temp & q & rains & rain
          & Ht & Hti & Hdt & Hte & Htei & Hq & Hr & Hri).
  destruct (py_round_numeric _ _ Hq) as [r Hround].
  unfold hourly_hour.
  rewrite Ht; cbn [mbind result_bind]. rewrite Hti; cbn [mbind result_bind].
  rewrite Hdt; cbn [mbind result_bind]. rewrite Hte; cbn [mbind result_bind].
  rewrite Htei; cbn [mbind result_bind]. rewrite Hround; cbn [mbind result_bind].
  rewrite Hr; cbn [mbind result_bind]. rewrite Hri; cbn [mbind result_bind].
  eauto.
Qed.

Lemma hourly_hour_Ok (hourly : value) (tz : tzinfo) (i : nat) (e : hourly_entry) :
  hourly_hour hourly tz i = Ok e →
  ∃ times t dt temps temp rains rain,
    getitem hourly "time" = Ok times ∧ getindex times i = Ok t ∧
    localtime t tz = Ok dt ∧
    getitem hourly "temperature_2m" = Ok temps ∧ getindex temps i = Ok temp ∧
    py_round temp = Ok (h_temperature e) ∧
    getitem hourly "rain" = Ok rains ∧ getindex rains i = Ok rain ∧
    h_time e = strftime_I_nopad dt +:+ " " +:+ strftime_p dt ∧
    h_precipitiation e = rain.
Proof.
  unfold hourly_hour. intros He.
  inv_bind He. inv_bind He. inv_bind He. inv_bind He.
  inv_bind He. inv_bind He. inv_bind He. inv_bind He.
  injection He as <-. cbn [h_time h_temperature h_precipitiation].
  do 7 eexists. repeat split; eassumption.
Qed.


Lemma parse_hourly_mapR (hourly : value) (tz : tzinfo) :
  parse_hourly hourly tz = mapR (hourly_hour hourly tz) (seq 0 24).
Proof. unfold parse_hourly. apply for_range_append. Qed.



End Hourly.



Example demo_hourly_forecast :
  take 3 (drop 11 (hourly_forecast demo_params))
  = [ {| h_time := "11 AM"; h_temperature := 6;
         h_precipitiation := Demo.float 11 10 |};
      {| h_time := "12 PM"; h_temperature := 6;
         h_precipitiation := Demo.float 12 10 |};
      {| h_time := "1 PM"; h_temperature := 6;
         h_precipitiation := Demo.float 13 10 |} ].
Proof. reflexivity. Qed.

Section DataPoints.
Context `{Externals}.

(** ** The data points *)

Lemma parse_data_points_outcome (current daily : value) (tz : tzinfo) (air_quality : value) :
  outcome (parse_data_points current daily tz air_quality)
  = (pts ← base_data_points current daily tz;
     Ok (if truthy air_quality
         then match air_quality_point air_quality with
              | Ok p => pts ++ [p]
              | Raise _ => pts
              end
         else pts)).
Proof.
  unfold parse_data_points. rewrite M_bind_lift_outcome.
  destruct (base_data_points current daily tz) as [pts|e]; [|reflexivity].
  destruct (truthy air_quality); [|reflexivity].
  destruct (air_quality_point air_quality); reflexivity.
Qed.

Lemma parse_data_points_trace (current daily : value) (tz : tzinfo) (air_quality : value) :
  trace (parse_data_points current daily tz air_quality)
  = match base_data_points current daily tz with
    | Ok _ =>
        if truthy air_quality
        then match air_quality_point air_quality with
             | Ok _ => []
             | Raise e => [LogWarning "Failed to parse AQI: " e]
             end
        else []
    | Raise _ => []
    end.
Proof.
  unfold parse_data_points. rewrite M_bind_lift_trace.
  destruct (base_data_points current daily tz) as [pts|e]; [|reflexivity].
  destruct (truthy air_quality); [|reflexivity].
  destruct (air_quality_point air_quality); reflexivity.
Qed.

Lemma base_data_points_Ok (current daily : value) (tz : tzinfo) (pts : list data_point) :
  base_data_points current daily tz = Ok pts →
  ∃ sunrises sunrise sunrise_dt sunsets sunset sunset_dt p1 p2 p3 p4 p5 p6 p7,
    getitem daily "sunrise" = Ok sunrises ∧ getindex sunrises 0 = Ok sunrise ∧
    localtime sunrise tz = Ok sunrise_dt ∧
    getitem daily "sunset" = Ok sunsets ∧ getindex sunsets 0 = Ok sunset ∧
    localtime sunset tz = Ok sunset_dt ∧
    pts = [p1; p2; p3; p4; p5; p6; p7] ∧
    label p1 = "Sunrise" ∧
    measurement p1
    = VStr (lstrip "0" (strftime_I sunrise_dt +:+ ":" +:+ strftime_M sunrise_dt)) ∧
    unit p1 = strftime_p sunrise_dt ∧
    label p2 = "Sunset" ∧
    measurement p2
    = VStr (lstrip "0" (strftime_I sunset_dt +:+ ":" +:+ strftime_M sunset_dt)) ∧
    unit p2 = strftime_p sunset_dt ∧
    label p3 = "Wind" ∧ label p4 = "Humidity" ∧ label p5 = "Pressure" ∧
    label p6 = "UV Index" ∧ label p7 = "Rain".
Proof.
  unfold base_data_points. intros Hp.
  inv_bind Hp. inv_bind Hp. inv_bind Hp. inv_bind Hp. inv_bind Hp. inv_bind Hp.
  inv_bind Hp. inv_bind Hp. inv_bind Hp. inv_bind Hp. inv_bind Hp. inv_bind Hp.
  inv_bind Hp. injection Hp as <-.
  do 13 eexists.
  repeat match goal with |- _ ∧ _ => split end; try eassumption; reflexivity.
Qed.






End DataPoints.



Example demo_sunrise_sunset :
  take 2 (data_points demo_params)
  = [ {| label := "Sunrise"; measurement := VStr "8:16"; unit := "AM";
         icon := "/usr/local/inkypi/src/plugins/weather_custom/icons/sunrise.png" |};
      {| label := "Sunset"; measurement := VStr "4:08"; unit := "PM";
         icon := "/usr/local/inkypi/src/plugins/weather_custom/icons/sunset.png" |} ].
Proof. reflexivity. Qed.

(** A sunrise at 06:05, and midnight and noon, on which [%I] prints 12. *)
Example clock_examples :
  lstrip "0" (strftime_I {| dt_year := 2024; dt_month := 6; dt_day := 1;
                            dt_hour := 6; dt_minute := 5 |}
              +:+ ":" +:+
              strftime_M {| dt_year := 2024; dt_month := 6; dt_day := 1;
                            dt_hour := 6; dt_minute := 5 |}) = "6:05" ∧
  lstrip "0" (strftime_I {| dt_year := 2024; dt_month := 6; dt_day := 1;
                            dt_hour := 0; dt_minute := 0 |}
              +:+ ":" +:+
              strftime_M {| dt_year := 2024; dt_month := 6; dt_day := 1;
                            dt_hour := 0; dt_minute := 0 |}) = "12:00" ∧
  lstrip "0" (strftime_I {| dt_year := 2024; dt_month := 6; dt_day := 1;
                            dt_hour := 12; dt_minute := 30 |}
              +:+ ":" +:+
              strftime_M {| dt_year := 2024; dt_month := 6; dt_day := 1;
                            dt_hour := 12; dt_minute := 30 |}) = "12:30".
Proof. repeat split; reflexivity. Qed.

Section Render.
Context `{Externals}.

(** ** The two requests *)

Lemma get_weather_data_eq (lat long : value) :
  get_weather_data lat long
  = match requests_get (forecast_url lat long) with
    | Ok r =>
        if ok r then MkM [HttpGet (forecast_url lat long)] (response_json r)
        else MkM [HttpGet (forecast_url lat long);
                  LogError "Failed to fetch weather data: " (content r)]
               (Raise (RuntimeError "Failed to fetch weather data."))
    | Raise e => MkM [HttpGet (forecast_url lat long)] (Raise e)
    end.
Proof.
  unfold get_weather_data, http_get, forecast_url, mbind, M_bind. cbn [outcome trace].
  destruct (requests_get _) as [r|e]; [|reflexivity].
  destruct (ok r); reflexivity.
Qed.

Lemma get_air_quality_eq (lat long : value) :
  get_air_quality lat long
  = match requests_get (air_quality_url lat long) with
    | Ok r =>
        if ok r then MkM [HttpGet (air_quality_url lat long)] (response_json r)
        else MkM [HttpGet (air_quality_url lat long);
                  LogError "Failed to fetch air quality data: " (content r)]
               (Ok VNone)
    | Raise e => MkM [HttpGet (air_quality_url lat long)] (Raise e)
    end.
Proof.
  unfold get_air_quality, http_get, air_quality_url, mbind, M_bind. cbn [outcome trace].
  destruct (requests_get _) as [r|e]; [|reflexivity].
  destruct (ok r); reflexivity.
Qed.

Lemma get_weather_data_no_render (lat long : value) :
  Forall (λ ev, is_render ev = false) (trace (get_weather_data lat long)).
Proof.
  rewrite get_weather_data_eq.
  destruct (requests_get _) as [r|e]; [destruct (ok r)|]; repeat constructor.
Qed.

Lemma get_air_quality_no_render (lat long : value) :
  Forall (λ ev, is_render ev = false) (trace (get_air_quality lat long)).
Proof.
  rewrite get_air_quality_eq.
  destruct (requests_get _) as [r|e]; [destruct (ok r)|]; repeat constructor.
Qed.

Lemma parse_weather_data_trace (data air_quality : value) (tz : tzinfo) :
  trace (parse_weather_data data air_quality tz) = []
  ∨ ∃ e, trace (parse_weather_data data air_quality tz)
         = [LogWarning "Failed to parse AQI: " e].
Proof.
  unfold parse_weather_data.
  repeat (rewrite M_bind_lift_trace;
          match goal with
          | |- context [match ?r with Ok _ => _ | Raise _ => _ end] =>
              destruct r; [|by left]
          end).
  rewrite M_bind_trace, parse_data_points_trace.
  destruct (outcome (parse_data_points _ _ _ _));
    (destruct (base_data_points _ _ _); [|by left]);
    (destruct (truthy air_quality); [|by left]);
    (destruct (air_quality_point air_quality); [by left|right; eauto]).
Qed.

Lemma parse_weather_data_no_render (data air_quality : value) (tz : tzinfo) :
  Forall (λ ev, is_render ev = false) (trace (parse_weather_data data air_quality tz)).
Proof.
  destruct (parse_weather_data_trace data air_quality tz) as [->|[e ->]];
    repeat constructor.
Qed.

Lemma no_render_elem (t : list event) dims html css params :
  Forall (λ ev, is_render ev = false) t → RenderImage dims html css params ∉ t.
Proof.
  intros Hall Hin. rewrite Forall_forall in Hall.
  specialize (Hall _ Hin). discriminate.
Qed.

(** The renderer is called at most once, after both requests were answered
    and the forecast was parsed. *)
Lemma generate_image_render_inv (settings : gmap string value) (device_config : DeviceConfig)
    dims html css params :
  RenderImage dims html css params ∈ trace (generate_image settings device_config) →
  let lat := dict_get settings "latitude" in
  let long := dict_get settings "longitude" in
  ∃ weather_data air_quality timezone_str tz p,
    truthy lat = true ∧ truthy long = true ∧
    outcome (get_weather_data lat long) = Ok weather_data ∧
    outcome (get_air_quality lat long) = Ok air_quality ∧
    value_get weather_data "timezone" (get_config device_config "timezone" (VStr "UTC"))
    = Ok timezone_str ∧
    pytz_timezone timezone_str = Ok tz ∧
    outcome (parse_weather_data weather_data air_quality tz) = Ok p ∧
    params = set_plugin_settings p settings.
Proof.
  intros Hin lat long. unfold generate_image in Hin. fold lat long in Hin.
  destruct (truthy lat) eqn:Hlat; [|by apply elem_of_nil in Hin].
  destruct (truthy long) eqn:Hlong; [|by apply elem_of_nil in Hin].
  cbn [negb orb] in Hin.
  rewrite M_bind_trace in Hin.
  destruct (outcome (get_weather_data lat long)) as [wd|] eqn:Hw;
    [|by apply no_render_elem in Hin; [|apply get_weather_data_no_render]].
  apply elem_of_app in Hin as [Hin|Hin];
    [by apply no_render_elem in Hin; [|apply get_weather_data_no_render]|].
  rewrite M_bind_trace in Hin.
  destruct (outcome (get_air_quality lat long)) as [aq|] eqn:Ha;
    [|by apply no_render_elem in Hin; [|apply get_air_quality_no_render]].
  apply elem_of_app in Hin as [Hin|Hin];
    [by apply no_render_elem in Hin; [|apply get_air_quality_no_render]|].
  rewrite M_bind_lift_trace in Hin.
  destruct (value_get wd _ _) as [tzs|] eqn:Hz; [|by apply elem_of_nil in Hin].
  rewrite M_bind_lift_trace in Hin.
  destruct (pytz_timezone tzs) as [tz|] eqn:Htz; [|by apply elem_of_nil in Hin].
  rewrite M_bind_trace in Hin.
  destruct (outcome (parse_weather_data wd aq tz)) as [p|] eqn:Hp;
    [|by apply no_render_elem in Hin; [|apply parse_weather_data_no_render]].
  apply elem_of_app in Hin as [Hin|Hin];
    [by apply no_render_elem in Hin; [|apply parse_weather_data_no_render]|].
  rewrite M_bind_trace in Hin. cbn [emit outcome trace] in Hin.
  rewrite M_bind_lift_trace in Hin.
  assert (RenderImage dims html css params
          ∈ [RenderImage (if eq_str (get_config device_config "orientation" VNone) "vertical"
                          then reverse (get_resolution device_config)
                          else get_resolution device_config)
               "weather.html" "weather.css" (set_plugin_settings p settings)]) as Hin'.
  { destruct (render_image _ _ _ _) as [[img|]|]; exact Hin. }
  apply list_elem_of_singleton in Hin'. injection Hin' as _ _ _ ->.
  exists wd, aq, tzs, tz, p. repeat split; assumption.
Qed.

End Render.

Section Requests.
Context `{Externals}.

(** ** Coordinates and the forecast request *)

Lemma generate_image_falsy (settings : gmap string value) (device_config : DeviceConfig) :
  truthy (dict_get settings "latitude") = false
  ∨ truthy (dict_get settings "longitude") = false →
  generate_image settings device_config = MkM [] (Raise missing_coordinates).
Proof.
  intros Hf. unfold generate_image.
  destruct Hf as [-> | ->]; [reflexivity|].
  by rewrite orb_true_r.
Qed.

Lemma generate_image_truthy (settings : gmap string value) (device_config : DeviceConfig) :
  truthy (dict_get settings "latitude") = true →
  truthy (dict_get settings "longitude") = true →
  ∃ k, generate_image settings device_config
       = (get_weather_data (dict_get settings "latitude") (dict_get settings "longitude")
          ≫= k)
       ∧ ∀ weather_data,
           ∃ k', k weather_data
                 = (get_air_quality (dict_get settings "latitude")
                      (dict_get settings "longitude") ≫= k').
Proof.
  intros Hlat Hlong. unfold generate_image. rewrite Hlat, Hlong. cbn [negb orb].
  eexists. split; [reflexivity|]. intros wd. cbn beta. eexists. reflexivity.
Qed.

(** C7: when the forecast request is answered with a status that is not a
    success, [get_weather_data] logs the body and raises "Failed to fetch
    weather data."; it returns no parsed response; and [generate_image] ends
    with that exception after the forecast request alone (no air-quality
    request, no rendering). *)
Theorem forecast_failure_is_fatal :
  (∀ (lat long : value) (r : response),
     requests_get (forecast_url lat long) = Ok r → ok r = false →
     get_weather_data lat long
     = MkM [HttpGet (forecast_url lat long);
            LogError "Failed to fetch weather data: " (content r)]
         (Raise (RuntimeError "Failed to fetch weather data."))) ∧
  (∀ (lat long : value) (r : response) (data : value),
     requests_get (forecast_url lat long) = Ok r → ok r = false →
     outcome (get_weather_data lat long) ≠ Ok data) ∧
  (∀ (settings : gmap string value) (device_config : DeviceConfig) (r : response),
     let lat := dict_get settings "latitude" in
     let long := dict_get settings "longitude" in
     truthy lat = true → truthy long = true →
     requests_get (forecast_url lat long) = Ok r → ok r = false →
     generate_image settings device_config
     = MkM [HttpGet (forecast_url lat long);
            LogError "Failed to fetch weather data: " (content r)]
         (Raise (RuntimeError "Failed to fetch weather data."))).
Proof.
  assert (∀ lat long r,
            requests_get (forecast_url lat long) = Ok r → ok r = false →
            get_weather_data lat long
            = MkM [HttpGet (forecast_url lat long);
                   LogError "Failed to fetch weather data: " (content r)]
                (Raise (RuntimeError "Failed to fetch weather data."))) as Hfail.
  { intros lat long r Hr Hok. rewrite get_weather_data_eq, Hr, Hok. reflexivity. }
  split; [exact Hfail|split].
  - intros lat long r data Hr Hok. rewrite (Hfail _ _ _ Hr Hok). discriminate.
  - intros settings device_config r lat long Hlat Hlong Hr Hok.
    destruct (generate_image_truthy settings device_config Hlat Hlong) as (k & -> & _).
    fold lat long. rewrite (Hfail _ _ _ Hr Hok). reflexivity.
Qed.

(** C9: a coordinate that is present in the settings but falsy, such as the
    number 0, the float 0.0 or the empty string, makes [generate_image] raise
    the error of a missing coordinate with no event before it, exactly as an
    absent coordinate does. *)
Theorem falsy_coordinate_rejected :
  (∀ (settings : gmap string value) (device_config : DeviceConfig) (v : value),
     settings !! "latitude" = Some v ∨ settings !! "longitude" = Some v →
     truthy v = false →
     generate_image settings device_config = MkM [] (Raise missing_coordinates)) ∧
  (∀ (settings : gmap string value) (device_config : DeviceConfig),
     settings !! "latitude" = None ∨ settings !! "longitude" = None →
     generate_image settings device_config = MkM [] (Raise missing_coordinates)) ∧
  truthy (VInt 0) = false ∧
  truthy (VFloat (FFinite false 0 1)) = false ∧
  truthy (VStr "") = false.
Proof.
  split; [|split; [|repeat split; reflexivity]].
  - intros settings device_config v Hv Hf. apply generate_image_falsy.
    unfold dict_get. destruct Hv as [-> | ->]; simpl; auto.
  - intros settings device_config Hv. apply generate_image_falsy.
    unfold dict_get. destruct Hv as [-> | ->]; simpl; auto.
Qed.

(** C6, as the code has it: an absent, [None] or empty coordinate makes
    [generate_image] raise before any event; with both coordinates present
    and truthy the forecast request is the first event, and the air-quality
    request is the second once the forecast response was a success that
    decodes. *)
Theorem coordinates_required :
  (∀ (settings : gmap string value) (device_config : DeviceConfig) (key : string),
     key = "latitude" ∨ key = "longitude" →
     settings !! key = None ∨ settings !! key = Some VNone
     ∨ settings !! key = Some (VStr "") →
     generate_image settings device_config = MkM [] (Raise missing_coordinates)) ∧
  (∀ (settings : gmap string value) (device_config : DeviceConfig) (lat long : value),
     settings !! "latitude" = Some lat → settings !! "longitude" = Some long →
     truthy lat = true → truthy long = true →
     (∃ rest, trace (generate_image settings device_config)
              = HttpGet (forecast_url lat long) :: rest) ∧
     (∀ (r : response) (data : value),
        requests_get (forecast_url lat long) = Ok r → ok r = true →
        json r = Some data →
        ∃ rest, trace (generate_image settings device_config)
                = HttpGet (forecast_url lat long)
                  :: HttpGet (air_quality_url lat long) :: rest)).
Proof.
  split.
  - intros settings device_config key Hkey Hv. apply generate_image_falsy.
    unfold dict_get. destruct Hkey as [-> | ->]; [left|right];
      destruct Hv as [-> |[-> | ->]]; reflexivity.
  - intros settings device_config lat long Hlat Hlong Htlat Htlong.
    assert (dict_get settings "latitude" = lat) as Elat
      by (unfold dict_get; by rewrite Hlat).
    assert (dict_get settings "longitude" = long) as Elong
      by (unfold dict_get; by rewrite Hlong).
    destruct (generate_image_truthy settings device_config) as (k & -> & Hk);
      [by rewrite Elat|by rewrite Elong|].
    rewrite Elat, Elong in *. rewrite M_bind_trace.
    split.
    + rewrite get_weather_data_eq.
      destruct (requests_get (forecast_url lat long)) as [r|e]; [destruct (ok r)|];
        cbn [outcome trace]; [destruct (response_json r)| |]; simpl; eauto.
    + intros r data Hr Hok Hjson.
      rewrite get_weather_data_eq, Hr, Hok. cbn [outcome trace].
      unfold response_json. rewrite Hjson.
      destruct (Hk data) as [k' ->]. rewrite M_bind_trace, get_air_quality_eq.
      destruct (requests_get (air_quality_url lat long)) as [r'|e]; [destruct (ok r')|];
        cbn [outcome trace]; [destruct (response_json r')| |]; simpl; eauto.
Qed.

End Requests.

Section AirQuality.
Context `{Externals}.

(** ** Air quality *)

Lemma base_data_points_labels (current daily : value) (tz : tzinfo) (pts : list data_point) :
  base_data_points current daily tz = Ok pts →
  ∀ p, p ∈ pts → label p ≠ "Air Quality".
Proof.
  intros Hpts p Hp.
  destruct (base_data_points_Ok _ _ _ _ Hpts)
    as (? & ? & ? & ? & ? & ? & p1 & p2 & p3 & p4 & p5 & p6 & p7
        & _ & _ & _ & _ & _ & _ & -> & Hl1 & _ & _ & Hl2 & _ & _ & Hl3 & Hl4 & Hl5 & Hl6 & Hl7).
  repeat (apply elem_of_cons in Hp as [-> | Hp]; [congruence|]).
  by apply elem_of_nil in Hp.
Qed.

Lemma parse_weather_data_air_quality (data air_quality : value) (tz : tzinfo) (e : exn) :
  outcome (parse_weather_data data air_quality tz) = Raise e
  ↔ outcome (parse_weather_data data VNone tz) = Raise e.
Proof.
  unfold parse_weather_data.
  repeat (rewrite !M_bind_lift_outcome;
          match goal with
          | |- context [match ?r with Ok _ => _ | Raise _ => _ end] =>
              destruct r; [|reflexivity]
          end).
  rewrite !M_bind_outcome, !parse_data_points_outcome.
  destruct (base_data_points _ _ _); simpl; [|reflexivity].
  split; discriminate.
Qed.

(** C5, as the code has it: a status that is not a success on the air-quality
    request makes [get_air_quality] log the body and return [None]; the data
    points handed to the renderer then have no "Air Quality" entry; an
    exception raised while the AQI value is extracted from an air-quality
    document is logged as a warning and the seven other points are returned
    unchanged; and whatever the air-quality document is, [parse_weather_data]
    raises exactly when it raises without one.  Nothing catches an exception
    of the air-quality request itself or of decoding the body of a successful
    response: after a forecast that was fetched, it ends [generate_image]. *)
Theorem air_quality_soft_failure :
  (∀ (lat long : value) (r : response),
     requests_get (air_quality_url lat long) = Ok r → ok r = false →
     get_air_quality lat long
     = MkM [HttpGet (air_quality_url lat long);
            LogError "Failed to fetch air quality data: " (content r)]
         (Ok VNone)) ∧
  (∀ (settings : gmap string value) (device_config : DeviceConfig) (r : response)
     dims html css params,
     requests_get (air_quality_url (dict_get settings "latitude")
                     (dict_get settings "longitude")) = Ok r →
     ok r = false →
     RenderImage dims html css params ∈ trace (generate_image settings device_config) →
     ∀ p, p ∈ data_points params → label p ≠ "Air Quality") ∧
  (∀ (current daily : value) (tz : tzinfo) (air_quality : value)
     (pts : list data_point) (e : exn),
     base_data_points current daily tz = Ok pts →
     truthy air_quality = true → air_quality_point air_quality = Raise e →
     parse_data_points current daily tz air_quality
     = MkM [LogWarning "Failed to parse AQI: " e] (Ok pts)
     ∧ ∀ p, p ∈ pts → label p ≠ "Air Quality") ∧
  (∀ (data air_quality : value) (tz : tzinfo) (e : exn),
     outcome (parse_weather_data data air_quality tz) = Raise e
     ↔ outcome (parse_weather_data data VNone tz) = Raise e) ∧
  (∀ (settings : gmap string value) (device_config : DeviceConfig)
     (weather_data : value) (e : exn),
     let lat := dict_get settings "latitude" in
     let long := dict_get settings "longitude" in
     truthy lat = true → truthy long = true →
     outcome (get_weather_data lat long) = Ok weather_data →
     requests_get (air_quality_url lat long) = Raise e
     ∨ (∃ r, requests_get (air_quality_url lat long) = Ok r ∧ ok r = true
             ∧ json r = None ∧ e = ValueError) →
     outcome (generate_image settings device_config) = Raise e).
Proof.
  assert (∀ lat long r,
            requests_get (air_quality_url lat long) = Ok r → ok r = false →
            get_air_quality lat long
            = MkM [HttpGet (air_quality_url lat long);
                   LogError "Failed to fetch air quality data: " (content r)]
                (Ok VNone)) as Hsoft.
  { intros lat long r Hr Hok. rewrite get_air_quality_eq, Hr, Hok. reflexivity. }
  split; [exact Hsoft|split; [|split; [|split]]].
  - intros settings device_config r dims html css params Hr Hok Hin p Hp.
    destruct (generate_image_render_inv _ _ _ _ _ _ Hin)
      as (wd & aq & tzs & tz & tp & _ & _ & _ & Haq & _ & _ & Htp & ->).
    rewrite (Hsoft _ _ _ Hr Hok) in Haq. injection Haq as <-.
    destruct (parse_weather_data_Ok _ _ _ _ Htp)
      as (current & daily & ? & ? & ? & ? & ? & ? & ?
          & _ & _ & _ & _ & _ & _ & _ & _ & _ & _ & Hdp & _).
    rewrite parse_data_points_outcome in Hdp. inv_bind Hdp.
    cbn [truthy] in Hdp. injection Hdp as Hdp.
    eapply base_data_points_labels; [exact E|].
    rewrite Hdp. exact Hp.
  - intros current daily tz air_quality pts e Hpts Ht He. split.
    + unfold parse_data_points. rewrite Hpts, Ht, He. reflexivity.
    + by eapply base_data_points_labels.
  - apply parse_weather_data_air_quality.
  - intros settings device_config wd e lat long Hlat Hlong Hwd Hair.
    destruct (generate_image_truthy settings device_config Hlat Hlong) as (k & -> & Hk).
    fold lat long in Hk |- *. rewrite M_bind_outcome, Hwd.
    destruct (Hk wd) as [k' ->]. rewrite M_bind_outcome, get_air_quality_eq.
    destruct Hair as [-> | (r & -> & -> & Hjson & ->)]; [reflexivity|].
    cbn [outcome]. unfold response_json. rewrite Hjson. reflexivity.
Qed.

(** ** The location that is displayed *)

(** C10: the location handed to the template is made of the [latitude] and
    [longitude] members of the decoded forecast response, each printed with
    two decimals, joined by a comma and a space; the coordinates of the
    settings enter it only through the response that the request gets, so
    two calls whose forecast responses decode alike display one location.
    Printing a finite float with two decimals prints the hundredth nearest to
    it (a tie going to the even one) after its sign. *)
Theorem location_from_response :
  (∀ (data air_quality : value) (tz : tzinfo) (p : template_params),
     outcome (parse_weather_data data air_quality tz) = Ok p →
     ∃ latitude longitude lat_s long_s,
       getitem data "latitude" = Ok latitude ∧ format_2f latitude = Ok lat_s ∧
       getitem data "longitude" = Ok longitude ∧ format_2f longitude = Ok long_s ∧
       location p = lat_s +:+ ", " +:+ long_s) ∧
  (∀ (settings : gmap string value) (device_config : DeviceConfig)
     dims html css params,
     RenderImage dims html css params ∈ trace (generate_image settings device_config) →
     ∃ r data latitude longitude lat_s long_s,
       requests_get (forecast_url (dict_get settings "latitude")
                       (dict_get settings "longitude")) = Ok r ∧
       json r = Some data ∧
       getitem data "latitude" = Ok latitude ∧ format_2f latitude = Ok lat_s ∧
       getitem data "longitude" = Ok longitude ∧ format_2f longitude = Ok long_s ∧
       location params = lat_s +:+ ", " +:+ long_s) ∧
  (∀ (settings1 settings2 : gmap string value) (device1 device2 : DeviceConfig)
     (r1 r2 : response) dims1 html1 css1 params1 dims2 html2 css2 params2,
     requests_get (forecast_url (dict_get settings1 "latitude")
                     (dict_get settings1 "longitude")) = Ok r1 →
     requests_get (forecast_url (dict_get settings2 "latitude")
                     (dict_get settings2 "longitude")) = Ok r2 →
     json r1 = json r2 →
     RenderImage dims1 html1 css1 params1 ∈ trace (generate_image settings1 device1) →
     RenderImage dims2 html2 css2 params2 ∈ trace (generate_image settings2 device2) →
     location params1 = location params2) ∧
  (∀ (neg : bool) (num : N) (den : positive),
     let c := round_half_even (num * 100) den in
     format_2f (VFloat (FFinite neg num den))
     = Ok ((if neg then "-" else "") +:+ str_int (Z.of_N (c / 100)) +:+ "."
           +:+ pad2 (Z.of_N (c mod 100))) ∧
     2 * Z.abs (Z.of_N c * Z.pos den - Z.of_N (num * 100)) ≤ Z.pos den).
Proof.
  assert (∀ data air_quality tz p,
            outcome (parse_weather_data data air_quality tz) = Ok p →
            ∃ latitude longitude lat_s long_s,
              getitem data "latitude" = Ok latitude ∧ format_2f latitude = Ok lat_s ∧
              getitem data "longitude" = Ok longitude ∧ format_2f longitude = Ok long_s ∧
              location p = lat_s +:+ ", " +:+ long_s) as Hparse.
  { intros data air_quality tz p Hp.
    destruct (parse_weather_data_Ok _ _ _ _ Hp)
      as (? & ? & ? & ? & ? & latitude & longitude & lat_s & long_s
          & _ & _ & _ & _ & _ & Hla & Hlas & Hlo & Hlos & _ & _ & _ & Hloc).
    exists latitude, longitude, lat_s, long_s. repeat split; assumption. }
  assert (∀ settings device_config dims html css params,
            RenderImage dims html css params
            ∈ trace (generate_image settings device_config) →
            ∃ r data latitude longitude lat_s long_s,
              requests_get (forecast_url (dict_get settings "latitude")
                              (dict_get settings "longitude")) = Ok r ∧
              json r = Some data ∧
              getitem data "latitude" = Ok latitude ∧ format_2f latitude = Ok lat_s ∧
              getitem data "longitude" = Ok longitude ∧ format_2f longitude = Ok long_s ∧
              location params = lat_s +:+ ", " +:+ long_s) as Hrender.
  { intros settings device_config dims html css params Hin.
    destruct (generate_image_render_inv _ _ _ _ _ _ Hin)
      as (wd & aq & tzs & tz & tp & _ & _ & Hwd & _ & _ & _ & Htp & ->).
    rewrite get_weather_data_eq in Hwd.
    destruct (requests_get _) as [r|] eqn:Hr; [|discriminate Hwd].
    destruct (ok r); [|discriminate Hwd].
    cbn [outcome] in Hwd. unfold response_json in Hwd.
    destruct (json r) as [data|] eqn:Hjson; [|discriminate Hwd].
    injection Hwd as ->.
    destruct (Hparse _ _ _ _ Htp)
      as (latitude & longitude & lat_s & long_s & ? & ? & ? & ? & ?).
    exists r, wd, latitude, longitude, lat_s, long_s. repeat split; assumption. }
  split; [exact Hparse|split; [exact Hrender|split]];
    [|intros neg num den c; split; [reflexivity|apply round_half_even_nearest]].
  intros settings1 settings2 device1 device2 r1 r2
    dims1 html1 css1 params1 dims2 html2 css2 params2 Hr1 Hr2 Hjson Hin1 Hin2.
  destruct (Hrender _ _ _ _ _ _ Hin1)
    as (r1' & d1 & la1 & lo1 & las1 & los1 & Hr1' & Hj1 & Hla1 & Hlas1 & Hlo1 & Hlos1 & ->).
  destruct (Hrender _ _ _ _ _ _ Hin2)
    as (r2' & d2 & la2 & lo2 & las2 & los2 & Hr2' & Hj2 & Hla2 & Hlas2 & Hlo2 & Hlos2 & ->).
  rewrite Hr1 in Hr1'. injection Hr1' as <-. rewrite Hr2 in Hr2'. injection Hr2' as <-.
  rewrite Hjson, Hj2 in Hj1. injection Hj1 as ->.
  congruence.
Qed.

End AirQuality.

(** ** Runs of the demonstration worlds *)

(** The forecast request is answered with status 503. *)
Lemma forecast_failure_is_fatal_witness :
  @generate_image demo_forecast_down demo_settings Demo.device
  = MkM [HttpGet (@forecast_url demo_forecast_down (VStr "52.52") (VStr "13.41"));
         LogError "Failed to fetch weather data: " "Service Unavailable"]
      (Raise (RuntimeError "Failed to fetch weather data.")).
Proof.
  apply (proj2 (proj2 (@forecast_failure_is_fatal demo_forecast_down))
           demo_settings Demo.device
           {| ok := false; content := "Service Unavailable"; json := None |}).
  - vm_compute. reflexivity.
  - vm_compute. reflexivity.
  - vm_compute. reflexivity.
  - reflexivity.
Defined.

(** A device on the equator: latitude 0. *)
Lemma falsy_coordinate_rejected_witness :
  @generate_image demo_all_up (Demo.settings (VInt 0) (VStr "13.41")) Demo.device
  = MkM [] (Raise missing_coordinates).
Proof.
  apply (proj1 (@falsy_coordinate_rejected demo_all_up)
           (Demo.settings (VInt 0) (VStr "13.41")) Demo.device (VInt 0)).
  - left. vm_compute. reflexivity.
  - reflexivity.
Defined.

(** The latitude field of the settings form was left empty: the key is
    present, and no request is made. *)
Lemma blank_latitude_is_present_and_rejected :
  is_Some (Demo.settings (VStr "") (VStr "13.41") !! "latitude") ∧
  is_Some (Demo.settings (VStr "") (VStr "13.41") !! "longitude") ∧
  @generate_image demo_all_up (Demo.settings (VStr "") (VStr "13.41")) Demo.device
  = MkM [] (Raise missing_coordinates).
Proof.
  split; [|split].
  - exists (VStr ""). vm_compute. reflexivity.
  - exists (VStr "13.41"). vm_compute. reflexivity.
  - vm_compute. reflexivity.
Qed.

(** No longitude in the settings; and both coordinates given. *)
Lemma coordinates_required_witness :
  @generate_image demo_all_up (list_to_map [("latitude", VStr "52.52")]) Demo.device
  = MkM [] (Raise missing_coordinates) ∧
  ∃ rest, trace (@generate_image demo_all_up demo_settings Demo.device)
          = HttpGet (@forecast_url demo_all_up (VStr "52.52") (VStr "13.41"))
            :: HttpGet (@air_quality_url demo_all_up (VStr "52.52") (VStr "13.41")) :: rest.
Proof.
  split.
  - apply (proj1 (@coordinates_required demo_all_up)
             (list_to_map [("latitude", VStr "52.52")]) Demo.device "longitude").
    + right. reflexivity.
    + left. vm_compute. reflexivity.
  - apply (proj2 (proj2 (@coordinates_required demo_all_up)
                    demo_settings Demo.device (VStr "52.52") (VStr "13.41")
                    ltac:(vm_compute; reflexivity) ltac:(vm_compute; reflexivity)
                    eq_refl eq_refl)
             {| ok := true; content := "{...}"; json := Some Demo.forecast_body |}
             Demo.forecast_body).
    + vm_compute. reflexivity.
    + reflexivity.
    + reflexivity.
Defined.

(** The air-quality request is answered with status 200 and a body that is
    not JSON, or is not answered at all: the call raises, where the same call
    returns an image when the answer is a 503. *)
Lemma air_quality_can_fail_the_render :
  outcome (@generate_image demo_air_garbled demo_settings Demo.device) = Raise ValueError ∧
  outcome (@generate_image demo_air_unreachable demo_settings Demo.device)
  = Raise (LibraryError "ConnectionError") ∧
  outcome (@generate_image demo_air_down demo_settings Demo.device) = Ok [800; 480].
Proof. repeat split; vm_compute; reflexivity. Qed.

(** A 503 on the air-quality request, and an air-quality document whose
    first AQI value is [null]. *)
Lemma air_quality_soft_failure_witness :
  @get_air_quality demo_air_down (VStr "52.52") (VStr "13.41")
  = MkM [HttpGet (@air_quality_url demo_air_down (VStr "52.52") (VStr "13.41"));
         LogError "Failed to fetch air quality data: " "Service Unavailable"]
      (Ok VNone) ∧
  (@parse_data_points demo_all_up Demo.current_body Demo.daily_body "Europe/Berlin"
     (Demo.air_body VNone)
   = MkM [LogWarning "Failed to parse AQI: " TypeError] (Ok (data_points demo_params))
   ∧ ∀ p, p ∈ data_points demo_params → label p ≠ "Air Quality").
Proof.
  split.
  - apply (proj1 (@air_quality_soft_failure demo_air_down) (VStr "52.52") (VStr "13.41")
             {| ok := false; content := "Service Unavailable"; json := None |}).
    + vm_compute. reflexivity.
    + reflexivity.
  - apply (proj1 (proj2 (proj2 (@air_quality_soft_failure demo_all_up)))).
    + vm_compute. reflexivity.
    + vm_compute. reflexivity.
    + vm_compute. reflexivity.
Defined.

(** With an AQI of 45 the eighth point is there. *)
Example demo_air_quality_point :
  @air_quality_point demo_all_up (Demo.air_body (VInt 45))
  = Ok {| label := "Air Quality"; measurement := VInt 45; unit := "Moderate";
          icon := "/usr/local/inkypi/src/plugins/weather_custom/icons/aqi.png" |}.
Proof. vm_compute. reflexivity. Qed.

(** The settings ask for 52.52, 13.41; the response is for the grid point
    52.52, 13.419998. *)
Lemma location_from_response_witness :
  ∃ r data latitude longitude lat_s long_s,
    @requests_get demo_air_down
      (@forecast_url demo_air_down (dict_get demo_settings "latitude")
         (dict_get demo_settings "longitude")) = Ok r ∧
    json r = Some data ∧
    getitem data "latitude" = Ok latitude ∧ format_2f latitude = Ok lat_s ∧
    getitem data "longitude" = Ok longitude ∧ format_2f longitude = Ok long_s ∧
    location (@set_plugin_settings demo_params demo_settings) = lat_s +:+ ", " +:+ long_s.
Proof.
  apply (proj1 (proj2 (@location_from_response demo_air_down))
           demo_settings Demo.device [800; 480] "weather.html" "weather.css").
  vm_compute. do 3 apply list_elem_of_further. apply list_elem_of_here.
Defined.

Example demo_location :
  location (@set_plugin_settings demo_params demo_settings) = "52.52, 13.42" ∧
  dict_get demo_settings "latitude" = VStr "52.52" ∧
  dict_get demo_settings "longitude" = VStr "13.41".
Proof. repeat split; vm_compute; reflexivity. Qed.

Section Stages_facts.
Context `{Externals}.

(** ** The stages of [generate_image] *)

Lemma generate_image_stages (settings : gmap string value) (device_config : DeviceConfig) :
  generate_image settings device_config
  = if negb (truthy (dict_get settings "latitude"))
       || negb (truthy (dict_get settings "longitude"))
    then raise missing_coordinates
    else
      weather_data ← get_weather_data (dict_get settings "latitude")
                        (dict_get settings "longitude");
      air_quality_data ← get_air_quality (dict_get settings "latitude")
                            (dict_get settings "longitude");
      render_stage settings device_config weather_data air_quality_data.
Proof. reflexivity. Qed.

Lemma render_stage_trace (settings : gmap string value) (device_config : DeviceConfig)
    (weather_data air_quality : value) :
  trace (render_stage settings device_config weather_data air_quality)
  = match value_get weather_data "timezone"
            (get_config device_config "timezone" (VStr "UTC")) with
    | Raise _ => []
    | Ok timezone_str =>
        match pytz_timezone timezone_str with
        | Raise _ => []
        | Ok tz =>
            trace (parse_weather_data weather_data air_quality tz)
            ++ match outcome (parse_weather_data weather_data air_quality tz) with
               | Ok p => [RenderImage (render_dimensions device_config)
                            "weather.html" "weather.css" (set_plugin_settings p settings)]
               | Raise _ => []
               end
        end
    end.
Proof.
  unfold render_stage, render_dimensions. rewrite M_bind_lift_trace.
  destruct (value_get _ _ _) as [tzs|]; [|reflexivity].
  rewrite M_bind_lift_trace.
  destruct (pytz_timezone tzs) as [tz|]; [|reflexivity].
  rewrite M_bind_trace.
  destruct (outcome (parse_weather_data _ _ tz)) as [p|]; [|by rewrite app_nil_r].
  f_equal. rewrite M_bind_trace. cbn [emit outcome trace].
  rewrite M_bind_lift_trace.
  destruct (render_image _ _ _ _) as [[img|]|]; reflexivity.
Qed.

Lemma render_stage_outcome (settings : gmap string value) (device_config : DeviceConfig)
    (weather_data air_quality : value) :
  outcome (render_stage settings device_config weather_data air_quality)
  = (timezone_str ← value_get weather_data "timezone"
                       (get_config device_config "timezone" (VStr "UTC"));
     tz ← pytz_timezone timezone_str;
     p ← outcome (parse_weather_data weather_data air_quality tz);
     render_outcome (render_image (render_dimensions device_config)
                       "weather.html" "weather.css" (set_plugin_settings p settings))).
Proof.
  unfold render_stage, render_dimensions, render_outcome. rewrite M_bind_lift_outcome.
  destruct (value_get _ _ _) as [tzs|]; [|reflexivity]. cbn [mbind result_bind].
  rewrite M_bind_lift_outcome.
  destruct (pytz_timezone tzs) as [tz|]; [|reflexivity]. cbn [mbind result_bind].
  rewrite M_bind_outcome.
  destruct (outcome (parse_weather_data _ _ tz)) as [p|]; [|reflexivity].
  cbn [mbind result_bind]. rewrite M_bind_outcome. cbn [emit outcome].
  rewrite M_bind_lift_outcome.
  destruct (render_image _ _ _ _) as [[img|]|]; reflexivity.
Qed.

Lemma http_requests_app (t1 t2 : list event) :
  http_requests (t1 ++ t2) = http_requests t1 ++ http_requests t2.
Proof. apply List.filter_app. Qed.

Lemma get_weather_data_requests (lat long : value) :
  http_requests (trace (get_weather_data lat long)) = [HttpGet (forecast_url lat long)].
Proof.
  rewrite get_weather_data_eq.
  destruct (requests_get _) as [r|]; [destruct (ok r)|]; reflexivity.
Qed.

Lemma get_air_quality_requests (lat long : value) :
  http_requests (trace (get_air_quality lat long)) = [HttpGet (air_quality_url lat long)].
Proof.
  rewrite get_air_quality_eq.
  destruct (requests_get _) as [r|]; [destruct (ok r)|]; reflexivity.
Qed.

Lemma render_stage_requests (settings : gmap string value) (device_config : DeviceConfig)
    (weather_data air_quality : value) :
  http_requests (trace (render_stage settings device_config weather_data air_quality)) = [].
Proof.
  rewrite render_stage_trace.
  destruct (value_get _ _ _) as [tzs|]; [|reflexivity].
  destruct (pytz_timezone tzs) as [tz|]; [|reflexivity].
  rewrite http_requests_app.
  destruct (parse_weather_data_trace weather_data air_quality tz) as [-> | [e ->]];
    destruct (outcome (parse_weather_data _ _ tz)); reflexivity.
Qed.

End Stages_facts.

Section Generate_image.
Context `{Externals}.

(** ** [generate_image] as a whole *)

(** Either the renderer was not called and no image comes back, or it was
    called once, as the last event, on the parsed forecast. *)
Lemma generate_image_cases (settings : gmap string value) (device_config : DeviceConfig) :
  (Forall (λ ev, is_render ev = false) (trace (generate_image settings device_config))
   ∧ ∀ img, outcome (generate_image settings device_config) ≠ Ok img)
  ∨ ∃ pre p,
      trace (generate_image settings device_config)
      = pre ++ [RenderImage (render_dimensions device_config) "weather.html" "weather.css"
                  (set_plugin_settings p settings)]
      ∧ Forall (λ ev, is_render ev = false) pre
      ∧ outcome (generate_image settings device_config)
        = render_outcome (render_image (render_dimensions device_config)
                            "weather.html" "weather.css" (set_plugin_settings p settings)).
Proof.
  rewrite generate_image_stages.
  destruct (negb _ || negb _); [left; split; [constructor|discriminate]|].
  rewrite M_bind_trace, M_bind_outcome.
  pose proof (get_weather_data_no_render (dict_get settings "latitude")
                (dict_get settings "longitude")) as Hw.
  destruct (outcome (get_weather_data _ _)) as [wd|]; [|left; split; [exact Hw|discriminate]].
  rewrite M_bind_trace, M_bind_outcome.
  pose proof (get_air_quality_no_render (dict_get settings "latitude")
                (dict_get settings "longitude")) as Ha.
  destruct (outcome (get_air_quality _ _)) as [aq|];
    [|left; split; [by apply Forall_app|discriminate]].
  rewrite render_stage_trace, render_stage_outcome.
  destruct (value_get _ _ _) as [tzs|]; cbn [mbind result_bind];
    [|left; split; [rewrite app_nil_r; by apply Forall_app|discriminate]].
  destruct (pytz_timezone tzs) as [tz|]; cbn [mbind result_bind];
    [|left; split; [rewrite app_nil_r; by apply Forall_app|discriminate]].
  pose proof (parse_weather_data_no_render wd aq tz) as Hp.
  destruct (outcome (parse_weather_data wd aq tz)) as [p|]; cbn [mbind result_bind].
  - right. eexists _, p. rewrite !app_assoc. split; [reflexivity|].
    split; [|reflexivity]. rewrite <- app_assoc. by repeat apply Forall_app_2.
  - left. split; [|discriminate]. rewrite app_nil_r. by repeat apply Forall_app_2.
Qed.

(** X1: [generate_image] makes no request when a coordinate is falsy;
    otherwise it makes the forecast request, and after it the air-quality
    request exactly when the forecast answer was a success that decodes.  It
    makes no other request, and none twice. *)
Theorem generate_image_http_requests (settings : gmap string value)
    (device_config : DeviceConfig) :
  let lat := dict_get settings "latitude" in
  let long := dict_get settings "longitude" in
  http_requests (trace (generate_image settings device_config))
  = if negb (truthy lat) || negb (truthy long) then []
    else match requests_get (forecast_url lat long) with
         | Ok r =>
             if ok r
             then match json r with
                  | Some _ => [HttpGet (forecast_url lat long);
                               HttpGet (air_quality_url lat long)]
                  | None => [HttpGet (forecast_url lat long)]
                  end
             else [HttpGet (forecast_url lat long)]
         | Raise _ => [HttpGet (forecast_url lat long)]
         end.
Proof.
  intros lat long. rewrite generate_image_stages. fold lat long.
  destruct (negb _ || negb _); [reflexivity|].
  rewrite M_bind_trace.
  assert (outcome (get_weather_data lat long)
          = match requests_get (forecast_url lat long) with
            | Ok r => if ok r then response_json r
                      else Raise (RuntimeError "Failed to fetch weather data.")
            | Raise e => Raise e
            end) as Hout.
  { rewrite get_weather_data_eq.
    destruct (requests_get _) as [r|]; [destruct (ok r)|]; reflexivity. }
  pose proof (get_weather_data_requests lat long) as Hw.
  rewrite Hout.
  destruct (requests_get (forecast_url lat long)) as [r|]; [|exact Hw].
  destruct (ok r); [|exact Hw]. unfold response_json.
  destruct (json r) as [data|]; [|exact Hw].
  rewrite http_requests_app, Hw, M_bind_trace.
  destruct (outcome (get_air_quality lat long)).
  - by rewrite http_requests_app, get_air_quality_requests, render_stage_requests.
  - by rewrite get_air_quality_requests.
Qed.

(** X2: when the renderer is called, it is called with the resolution of the
    device (reversed exactly when the orientation is "vertical"), with
    "weather.html" and "weather.css", and with template fields that carry the
    settings of the call; the call is the last event, and the only one of its
    kind. *)
Theorem generate_image_render_call (settings : gmap string value)
    (device_config : DeviceConfig) dims html css params :
  RenderImage dims html css params ∈ trace (generate_image settings device_config) →
  dims = (if eq_str (get_config device_config "orientation" VNone) "vertical"
          then reverse (get_resolution device_config)
          else get_resolution device_config) ∧
  html = "weather.html" ∧ css = "weather.css" ∧
  plugin_settings params = Some settings ∧
  ∃ pre, trace (generate_image settings device_config)
         = pre ++ [RenderImage dims html css params]
         ∧ Forall (λ ev, is_render ev = false) pre.
Proof.
  intros Hin.
  destruct (generate_image_cases settings device_config)
    as [[Hnone _]|(pre & p & Htrace & Hpre & _)].
  - by apply no_render_elem in Hin.
  - rewrite Htrace in Hin. apply elem_of_app in Hin as [Hin|Hin];
      [by apply no_render_elem in Hin|].
    apply list_elem_of_singleton in Hin. injection Hin as -> -> -> ->.
    repeat match goal with |- _ ∧ _ => split end; try reflexivity.
    exists pre. by split.
Qed.

(** X3: [generate_image] returns an image exactly when the renderer was
    called and answered with that image; when the renderer answers with no
    image the call raises "Failed to take screenshot, please check logs.",
    and an exception of the renderer is passed on. *)
Theorem generate_image_result (settings : gmap string value)
    (device_config : DeviceConfig) :
  (∀ img, outcome (generate_image settings device_config) = Ok img
          ↔ ∃ dims html css params,
              RenderImage dims html css params
              ∈ trace (generate_image settings device_config)
              ∧ render_image dims html css params = Ok (Some img)) ∧
  (∀ dims html css params,
     RenderImage dims html css params ∈ trace (generate_image settings device_config) →
     (render_image dims html css params = Ok None →
      outcome (generate_image settings device_config)
      = Raise (RuntimeError "Failed to take screenshot, please check logs.")) ∧
     (∀ e, render_image dims html css params = Raise e →
           outcome (generate_image settings device_config) = Raise e)).
Proof.
  destruct (generate_image_cases settings device_config)
    as [[Hnone Hout]|(pre & p & Htrace & Hpre & Hout)].
  - split.
    + intros img. split; [intros Himg; by destruct (Hout img)|].
      intros (dims & html & css & params & Hin & _). by apply no_render_elem in Hin.
    + intros dims html css params Hin. by apply no_render_elem in Hin.
  - assert (∀ dims html css params,
              RenderImage dims html css params
              ∈ trace (generate_image settings device_config) →
              outcome (generate_image settings device_config)
              = render_outcome (render_image dims html css params)) as Hcall.
    { intros dims html css params Hin. rewrite Htrace in Hin.
      apply elem_of_app in Hin as [Hin|Hin]; [by apply no_render_elem in Hin|].
      apply list_elem_of_singleton in Hin. injection Hin as -> -> -> ->. exact Hout. }
    split.
    + intros img. split.
      * intros Himg. eexists _, _, _, _. split.
        { rewrite Htrace. apply elem_of_app. right. apply list_elem_of_singleton.
          reflexivity. }
        rewrite Hout in Himg. unfold render_outcome in Himg.
        destruct (render_image _ _ _ _) as [[img'|]|]; congruence.
      * intros (dims & html & css & params & Hin & Hr).
        rewrite (Hcall _ _ _ _ Hin), Hr. reflexivity.
    + intros dims html css params Hin. rewrite (Hcall _ _ _ _ Hin). split.
      * intros ->. reflexivity.
      * intros e ->. reflexivity.
Qed.

End Generate_image.

Section Timezone.
Context `{Externals}.

(** X4: when the forecast document has a [timezone] member, the timezone of
    the device configuration plays no part: two devices with the same
    resolution and orientation get the same run of [generate_image]. *)
Theorem api_timezone_takes_precedence (settings : gmap string value)
    (device1 device2 : DeviceConfig) (r : response) (data : gmap string value)
    (timezone : value) :
  requests_get (forecast_url (dict_get settings "latitude")
                  (dict_get settings "longitude")) = Ok r →
  ok r = true → json r = Some (VDict data) → data !! "timezone" = Some timezone →
  get_resolution device1 = get_resolution device2 →
  get_config device1 "orientation" VNone = get_config device2 "orientation" VNone →
  generate_image settings device1 = generate_image settings device2.
Proof.
  intros Hr Hok Hjson Htz Hres Hori.
  assert (∀ air_quality,
            render_stage settings device1 (VDict data) air_quality
            = render_stage settings device2 (VDict data) air_quality) as Hstage.
  { intros air_quality. unfold render_stage. cbn [value_get].
    rewrite Htz, Hres, Hori. reflexivity. }
  rewrite !generate_image_stages.
  destruct (negb _ || negb _); [reflexivity|].
  rewrite get_weather_data_eq, Hr, Hok. unfold response_json. rewrite Hjson.
  unfold mbind, M_bind. cbn [outcome trace].
  destruct (get_air_quality _ _) as [ta [aq|e]]; cbn [outcome trace]; [|reflexivity].
  by rewrite Hstage.
Qed.

(** Without that member the timezone of the device is looked up, "UTC" being
    the default handed to the configuration. *)
Lemma device_timezone_is_fallback (data : gmap string value) (device_config : DeviceConfig) :
  data !! "timezone" = None →
  value_get (VDict data) "timezone" (get_config device_config "timezone" (VStr "UTC"))
  = Ok (get_config device_config "timezone" (VStr "UTC")).
Proof. intros Hno. simpl. by rewrite Hno. Qed.

End Timezone.

Section Fetch.
Context `{Externals}.

(** ** The two fetches *)

(** X5: [get_weather_data] makes exactly one request, to the forecast
    address, whatever comes back; it returns a document exactly when the
    answer is a success whose body decodes to it; and it logs an error
    exactly when an answer came with a status that is not a success. *)
Theorem get_weather_data_behaviour (lat long : value) :
  http_requests (trace (get_weather_data lat long)) = [HttpGet (forecast_url lat long)] ∧
  (∀ data, outcome (get_weather_data lat long) = Ok data
           ↔ ∃ r, requests_get (forecast_url lat long) = Ok r
                  ∧ ok r = true ∧ json r = Some data) ∧
  (∀ msg body, LogError msg body ∈ trace (get_weather_data lat long)
               ↔ ∃ r, requests_get (forecast_url lat long) = Ok r ∧ ok r = false
                      ∧ msg = "Failed to fetch weather data: " ∧ body = content r).
Proof.
  split; [apply get_weather_data_requests|].
  rewrite get_weather_data_eq.
  destruct (requests_get (forecast_url lat long)) as [r|e]; [destruct (ok r) eqn:Hok|];
    cbn [outcome trace]; unfold response_json.
  - split.
    + intros data. split.
      * intros Hd. exists r. destruct (json r); [|discriminate Hd].
        injection Hd as ->. by repeat split.
      * intros (r' & Hr' & _ & Hj). injection Hr' as <-. by rewrite Hj.
    + intros msg body. split.
      * intros Hin. apply list_elem_of_singleton in Hin. discriminate Hin.
      * intros (r' & Hr' & Hok' & _). injection Hr' as <-. congruence.
  - split.
    + intros data. split; [discriminate|].
      intros (r' & Hr' & Hok' & _). injection Hr' as <-. congruence.
    + intros msg body. split.
      * intros Hin. apply elem_of_cons in Hin as [Hin|Hin]; [discriminate Hin|].
        apply list_elem_of_singleton in Hin. injection Hin as -> ->.
        exists r. by repeat split.
      * intros (r' & Hr' & _ & -> & ->). injection Hr' as <-.
        apply list_elem_of_further, list_elem_of_here.
  - split.
    + intros data. split; [discriminate|]. intros (r' & Hr' & _). discriminate Hr'.
    + intros msg body. split.
      * intros Hin. apply list_elem_of_singleton in Hin. discriminate Hin.
      * intros (r' & Hr' & _). discriminate Hr'.
Qed.

(** X6: [get_air_quality] makes exactly one request, to the air-quality
    address; it returns [None] both for an answer that is not a success and
    for a success whose body decodes to [null], and otherwise the decoded
    body of a success; it raises only what the request or the decoding
    raises. *)
Theorem get_air_quality_behaviour (lat long : value) :
  http_requests (trace (get_air_quality lat long)) = [HttpGet (air_quality_url lat long)] ∧
  (∀ v, outcome (get_air_quality lat long) = Ok v
        ↔ ∃ r, requests_get (air_quality_url lat long) = Ok r
               ∧ (ok r = false ∧ v = VNone ∨ ok r = true ∧ json r = Some v)) ∧
  (∀ e, outcome (get_air_quality lat long) = Raise e
        ↔ requests_get (air_quality_url lat long) = Raise e
          ∨ ∃ r, requests_get (air_quality_url lat long) = Ok r
                 ∧ ok r = true ∧ json r = None ∧ e = ValueError).
Proof.
  split; [apply get_air_quality_requests|].
  rewrite get_air_quality_eq.
  destruct (requests_get (air_quality_url lat long)) as [r|e']; [destruct (ok r) eqn:Hok|];
    cbn [outcome trace]; unfold response_json.
  - split.
    + intros v. split.
      * intros Hv. exists r. destruct (json r); [|discriminate Hv].
        injection Hv as ->. split; [reflexivity|]. by right.
      * intros (r' & Hr' & [[Hok' _]|[_ Hj]]); injection Hr' as <-; [congruence|].
        by rewrite Hj.
    + intros e. split.
      * intros He. right. exists r. destruct (json r); [discriminate He|].
        injection He as <-. by repeat split.
      * intros [Hr'|(r' & Hr' & _ & Hj & ->)]; [discriminate Hr'|].
        injection Hr' as <-. by rewrite Hj.
  - split.
    + intros v. split.
      * intros Hv. injection Hv as <-. exists r. split; [reflexivity|]. by left.
      * intros (r' & Hr' & [[_ ->]|[Hok' _]]); injection Hr' as <-; [reflexivity|].
        congruence.
    + intros e. split; [discriminate|].
      intros [Hr'|(r' & Hr' & Hok' & _)]; [discriminate Hr'|].
      injection Hr' as <-. congruence.
  - split.
    + intros v. split; [discriminate|]. intros (r' & Hr' & _). discriminate Hr'.
    + intros e. split.
      * intros He. injection He as ->. by left.
      * intros [Hr'|(r' & Hr' & _)]; [by injection Hr' as ->|discriminate Hr'].
Qed.

End Fetch.

(** ** The bands of [get_aqi_description] *)

Lemma le_int_number (v : value) (k : Z) :
  is_number v = true → ∃ b, le_int v k = Ok b.
Proof.
  destruct v as [|b|z|[neg num den| |]|s|l|d]; simpl; intros Hn;
    try discriminate; eauto.
Qed.

Lemma le_int_not_number (v : value) (k : Z) :
  is_number v = false → le_int v k = Raise TypeError.
Proof. destruct v; simpl; intros Hn; try discriminate; reflexivity. Qed.

(** X7: [get_aqi_description] raises, and then a [TypeError], exactly on
    objects that are not numbers; on every number, [nan] and the infinities
    included, it answers with one of the five labels. *)
Theorem get_aqi_description_total_on_numbers (v : value) :
  (is_number v = true → ∃ d, get_aqi_description v = Ok d ∧ d ∈ AQI_LABELS) ∧
  (is_number v = false → get_aqi_description v = Raise TypeError).
Proof.
  split; intros Hn; unfold get_aqi_description.
  - destruct (le_int_number v 20 Hn) as [b1 ->], (le_int_number v 40 Hn) as [b2 ->],
      (le_int_number v 60 Hn) as [b3 ->], (le_int_number v 80 Hn) as [b4 ->].
    unfold AQI_LABELS. cbn [mbind result_bind].
    destruct b1, b2, b3, b4; eexists; (split; [reflexivity|]);
      repeat (first [apply list_elem_of_here|apply list_elem_of_further]).
  - by rewrite (le_int_not_number v 20 Hn).
Qed.

(** X8: a worse air quality never gets a better label: the rank of the label
    among Good, Fair, Moderate, Poor, Very Poor grows with the value. *)
Theorem get_aqi_description_monotone (v1 v2 : value) (q1 q2 : Q) (d1 d2 : string) :
  numeric_value v1 = Some q1 → numeric_value v2 = Some q2 → (q1 <= q2)%Q →
  get_aqi_description v1 = Ok d1 → get_aqi_description v2 = Ok d2 →
  (aqi_rank d1 ≤ aqi_rank d2)%nat.
Proof.
  intros Hq1 Hq2 Hle. unfold get_aqi_description.
  rewrite !(le_int_numeric v1 q1), !(le_int_numeric v2 q2) by assumption.
  cbn [mbind result_bind].
  assert (∀ k, Qle_bool q2 (inject_Z k) = true → Qle_bool q1 (inject_Z k) = true) as Hmono.
  { intros k Hk. apply Qle_bool_iff. apply Qle_bool_iff in Hk.
    eapply Qle_trans; eassumption. }
  pose proof (Hmono 20) as H20. pose proof (Hmono 40) as H40.
  pose proof (Hmono 60) as H60. pose proof (Hmono 80) as H80.
  destruct (Qle_bool q2 (inject_Z 20)), (Qle_bool q2 (inject_Z 40)),
    (Qle_bool q2 (inject_Z 60)), (Qle_bool q2 (inject_Z 80));
    rewrite ?H20, ?H40, ?H60, ?H80 by reflexivity;
    destruct (Qle_bool q1 (inject_Z 20)), (Qle_bool q1 (inject_Z 40)),
      (Qle_bool q1 (inject_Z 60)), (Qle_bool q1 (inject_Z 80));
    intros Hd1 Hd2; injection Hd1 as <-; injection Hd2 as <-;
    vm_compute; lia.
Qed.

(** 30.5 is "Fair", 61 is "Poor". *)
Lemma get_aqi_description_monotone_witness :
  (aqi_rank "Fair" ≤ aqi_rank "Poor")%nat.
Proof.
  apply (get_aqi_description_monotone (VFloat (FFinite false 61 2)) (VInt 61)
           (61 # 2)%Q (inject_Z 61) "Fair" "Poor" eq_refl eq_refl).
  - unfold Qle. simpl. lia.
  - reflexivity.
  - reflexivity.
Defined.

Section Air_quality_point.
Context `{Externals}.

(** ** The point of the air quality *)

Lemma air_quality_point_Ok (air_quality : value) (p : data_point) :
  air_quality_point air_quality = Ok p →
  ∃ hourly series aqi m,
    getitem air_quality "hourly" = Ok hourly ∧
    getitem hourly "european_aqi" = Ok series ∧
    getindex series 0 = Ok aqi ∧
    get_aqi_description aqi = Ok (unit p) ∧
    py_int int_of_str aqi = Ok m ∧
    p = {| label := "Air Quality"; measurement := VInt m; unit := unit p;
           icon := get_plugin_dir "icons/aqi.png" |}.
Proof.
  unfold air_quality_point. intros Hp.
  inv_bind Hp. inv_bind Hp. inv_bind Hp. inv_bind Hp. inv_bind Hp.
  injection Hp as <-. cbn [unit]. do 4 eexists. repeat split; eassumption.
Qed.

(** Comparing a non-negative float with an integer bound, through its
    integer part and whether it has a fraction. *)
Lemma float_le_int_parts (num : N) (den : positive) (k : Z) :
  (Z.of_N num <=? k * Z.pos den)
  = (Z.of_N (num / N.pos den) <? k)
    || ((Z.of_N (num / N.pos den) =? k) && (num mod N.pos den =? 0)%N).
Proof.
  pose proof (N.div_mod num (N.pos den) ltac:(discriminate)) as Hdm.
  pose proof (N.mod_lt num (N.pos den) ltac:(discriminate)) as Hlt.
  set (tq := (num / N.pos den)%N) in *. set (r := (num mod N.pos den)%N) in *.
  clearbody tq r.
  destruct (Z.leb_spec (Z.of_N num) (k * Z.pos den)),
    (Z.ltb_spec (Z.of_N tq) k), (Z.eqb_spec (Z.of_N tq) k), (N.eqb_spec r 0);
    simpl; try reflexivity; exfalso; nia.
Qed.

(** X9: the air-quality point shows the AQI value truncated to an integer,
    and the label of the value before truncation.  For an integer value the
    label is that of the number shown; for a float it is so unless the value
    has a fraction above 20, 40, 60 or 80, where the label is one band worse
    than the number shown would get. *)
Theorem air_quality_label_of_raw_value (air_quality : value) (p : data_point) :
  air_quality_point air_quality = Ok p →
  ∃ hourly series aqi m,
    getitem air_quality "hourly" = Ok hourly ∧
    getitem hourly "european_aqi" = Ok series ∧
    getindex series 0 = Ok aqi ∧
    label p = "Air Quality" ∧ measurement p = VInt m ∧
    get_aqi_description aqi = Ok (unit p) ∧
    (∀ z, aqi = VInt z → m = z) ∧
    (∀ neg num den, aqi = VFloat (FFinite neg num den) →
       m = signed neg (num / N.pos den)%N ∧
       (get_aqi_description (VInt m) = Ok (unit p)
        ↔ ¬ (neg = false ∧ (num mod N.pos den)%N ≠ 0%N
             ∧ (m = 20 ∨ m = 40 ∨ m = 60 ∨ m = 80)))).
Proof.
  intros Hp.
  destruct (air_quality_point_Ok _ _ Hp)
    as (hourly & series & aqi & m & Hh & Hs & Ha & Hd & Hm & Heq).
  exists hourly, series, aqi, m.
  repeat match goal with |- _ ∧ _ => split end; try assumption.
  - by rewrite Heq.
  - by rewrite Heq.
  - intros z ->. simpl in Hm. by injection Hm as <-.
  - intros neg num den ->. simpl in Hm. injection Hm as <-. split; [reflexivity|].
    revert Hd. generalize (unit p). intros d.
    unfold get_aqi_description. cbn [le_int mbind result_bind].
    destruct neg; cbn [signed].
    + assert (∀ k, 20 ≤ k → (- Z.of_N num <=? k * Z.pos den) = true) as Hneg
        by (intros k Hk; apply Z.leb_le; nia).
      assert ((- Z.of_N (num / N.pos den) <=? 20) = true) as Hm20.
      { pose proof (N2Z.is_nonneg (num / N.pos den)). apply Z.leb_le. lia. }
      rewrite Hneg, Hm20 by lia. intros Hd. split; [|intros _; exact Hd].
      intros _ (Hf & _). discriminate Hf.
    + rewrite !float_le_int_parts.
      set (tq := Z.of_N (num / N.pos den)). set (r := (num mod N.pos den)%N).
      clearbody tq r.
      destruct (N.eqb_spec r 0) as [Hr|Hr];
        destruct (Z.ltb_spec tq 20), (Z.eqb_spec tq 20), (Z.ltb_spec tq 40),
          (Z.eqb_spec tq 40), (Z.ltb_spec tq 60), (Z.eqb_spec tq 60),
          (Z.ltb_spec tq 80), (Z.eqb_spec tq 80);
        try (exfalso; lia);
        destruct (Z.leb_spec tq 20), (Z.leb_spec tq 40), (Z.leb_spec tq 60),
          (Z.leb_spec tq 80);
        try (exfalso; lia);
        cbn [orb andb]; intros Hd; injection Hd as <-;
        (split; [intros Hx; try discriminate Hx; intros (_ & Hr' & Hcase); lia
                |intros Hx; try reflexivity; exfalso; apply Hx;
                 repeat split; try assumption; lia]).
Qed.

End Air_quality_point.

Section Data_points_shape.
Context `{Externals}.

(** ** The list of data points *)

Lemma base_data_points_values (current daily : value) (tz : tzinfo) (pts : list data_point) :
  base_data_points current daily tz = Ok pts →
  ∃ p1 p2 wind w humidity pressure uvs uv rain,
    getitem current "wind_speed_10m" = Ok wind ∧ py_round wind = Ok w ∧
    getitem current "relative_humidity_2m" = Ok humidity ∧
    getitem current "pressure_msl" = Ok pressure ∧
    getitem daily "uv_index_max" = Ok uvs ∧ getindex uvs 0 = Ok uv ∧
    getitem current "rain" = Ok rain ∧
    pts = [ p1; p2;
            {| label := "Wind"; measurement := VInt w; unit := "km/h";
               icon := get_plugin_dir "icons/wind.png" |};
            {| label := "Humidity"; measurement := humidity; unit := "%";
               icon := get_plugin_dir "icons/humidity.png" |};
            {| label := "Pressure"; measurement := pressure; unit := "hPa";
               icon := get_plugin_dir "icons/pressure.png" |};
            {| label := "UV Index"; measurement := uv; unit := "";
               icon := get_plugin_dir "icons/uvi.png" |};
            {| label := "Rain"; measurement := rain; unit := "mm";
               icon := get_plugin_dir "icons/rain.png" |} ] ∧
    label p1 = "Sunrise" ∧ label p2 = "Sunset".
Proof.
  unfold base_data_points. intros Hp.
  inv_bind Hp. inv_bind Hp. inv_bind Hp. inv_bind Hp. inv_bind Hp. inv_bind Hp.
  inv_bind Hp. inv_bind Hp. inv_bind Hp. inv_bind Hp. inv_bind Hp. inv_bind Hp.
  inv_bind Hp. injection Hp as <-.
  do 9 eexists.
  repeat match goal with |- _ ∧ _ => split end; try eassumption; reflexivity.
Qed.

(** X10: the data points come in a fixed order: Sunrise, Sunset, Wind (the
    rounded wind speed, in km/h), Humidity, Pressure, UV Index and Rain, the
    last four showing the values of the forecast document as they came; an
    eighth point follows exactly when the air-quality document is truthy and
    its AQI value could be extracted, and it is the "Air Quality" point.  A
    warning is logged only when a truthy document fails the extraction. *)
Theorem data_points_shape (current daily : value) (tz : tzinfo) (air_quality : value)
    (pts : list data_point) :
  outcome (parse_data_points current daily tz air_quality) = Ok pts →
  ∃ wind w humidity pressure uvs uv rain,
    label <$> take 7 pts
    = ["Sunrise"; "Sunset"; "Wind"; "Humidity"; "Pressure"; "UV Index"; "Rain"] ∧
    getitem current "wind_speed_10m" = Ok wind ∧ py_round wind = Ok w ∧
    getitem current "relative_humidity_2m" = Ok humidity ∧
    getitem current "pressure_msl" = Ok pressure ∧
    getitem daily "uv_index_max" = Ok uvs ∧ getindex uvs 0 = Ok uv ∧
    getitem current "rain" = Ok rain ∧
    measurement <$> drop 2 (take 7 pts) = [VInt w; humidity; pressure; uv; rain] ∧
    unit <$> drop 2 (take 7 pts) = ["km/h"; "%"; "hPa"; ""; "mm"] ∧
    (drop 7 pts = []
     ∧ (truthy air_quality = false ∧ trace (parse_data_points current daily tz air_quality) = []
        ∨ ∃ e, truthy air_quality = true ∧ air_quality_point air_quality = Raise e
               ∧ trace (parse_data_points current daily tz air_quality)
                 = [LogWarning "Failed to parse AQI: " e])
     ∨ ∃ p, drop 7 pts = [p] ∧ label p = "Air Quality"
            ∧ truthy air_quality = true ∧ air_quality_point air_quality = Ok p
            ∧ trace (parse_data_points current daily tz air_quality) = []).
Proof.
  intros Hpts. rewrite parse_data_points_trace.
  rewrite parse_data_points_outcome in Hpts. inv_bind Hpts. rewrite E.
  destruct (base_data_points_values _ _ _ _ E)
    as (p1 & p2 & wind & w & humidity & pressure & uvs & uv & rain
        & Hw & Hr & Hh & Hp & Hu & Hu0 & Hrain & -> & Hl1 & Hl2).
  exists wind, w, humidity, pressure, uvs, uv, rain.
  injection Hpts as <-.
  destruct (truthy air_quality); [destruct (air_quality_point air_quality) as [p|e] eqn:Hq|];
    cbn [take drop app fmap list_fmap label measurement unit]; rewrite ?Hl1, ?Hl2;
    (repeat match goal with |- _ ∧ _ => split end; try assumption; try reflexivity).
  - right. exists p. repeat split; try reflexivity.
    destruct (air_quality_point_Ok _ _ Hq) as (? & ? & ? & ? & _ & _ & _ & _ & _ & ->).
    reflexivity.
  - left. split; [reflexivity|]. right. exists e. by repeat split.
  - left. split; [reflexivity|]. by left.
Qed.

End Data_points_shape.

(** ** What the loops read *)

Lemma mapR_ext {A B} (f g : A → result B) (l : list A) :
  (∀ x, x ∈ l → f x = g x) → mapR f l = mapR g l.
Proof.
  induction l as [|x l IH]; intros Hfg; [reflexivity|]. simpl.
  rewrite (Hfg x) by left. rewrite IH; [reflexivity|].
  intros y Hy. apply Hfg. by right.
Qed.

Lemma mapR_seq_first_Raise {B} (f : nat → result B) (m s i : nat) (e : exn) :
  (s ≤ i < s + m)%nat → (∀ j, (s ≤ j < i)%nat → ∃ x, f j = Ok x) → f i = Raise e →
  mapR f (seq s m) = Raise e.
Proof.
  revert s. induction m as [|m IH]; intros s Hi Hbefore Hfail; [lia|].
  simpl. destruct (decide (i = s)) as [->|Hne].
  - by rewrite Hfail.
  - destruct (Hbefore s) as [x ->]; [lia|]. cbn [mbind result_bind].
    rewrite (IH (S s)); [reflexivity|lia| |exact Hfail].
    intros j Hj. apply Hbefore. lia.
Qed.

Lemma getitem_truncate_series (k : nat) (v : value) (key : string) :
  getitem (truncate_series k v) key
  = match getitem v key with
    | Ok x => Ok (truncate_list k x)
    | Raise e => Raise e
    end.
Proof.
  destruct v as [| | | | | |d]; try reflexivity.
  simpl. rewrite lookup_fmap. by destruct (d !! key).
Qed.

Lemma getindex_truncate_list (k : nat) (v : value) (i : nat) :
  (i < k)%nat → getindex (truncate_list k v) i = getindex v i.
Proof.
  intros Hi. destruct v as [| | | | |l|]; try reflexivity.
  simpl. by rewrite lookup_take_lt.
Qed.

Section Reads.
Context `{Externals}.

Lemma forecast_day_truncate (k : nat) (daily : value) (tz : tzinfo) (i : nat) :
  (i < k)%nat →
  forecast_day (truncate_series k daily) tz i = forecast_day daily tz i.
Proof.
  intros Hi. unfold forecast_day. rewrite !getitem_truncate_series.
  destruct (getitem daily "time") as [times|]; [|reflexivity].
  cbn [mbind result_bind]. rewrite getindex_truncate_list by exact Hi.
  destruct (getindex times i) as [t|]; [|reflexivity]. cbn [mbind result_bind].
  destruct (localtime t tz) as [dt|]; [|reflexivity]. cbn [mbind result_bind].
  destruct (getitem daily "weathercode") as [codes|]; [|reflexivity].
  cbn [mbind result_bind]. rewrite getindex_truncate_list by exact Hi.
  destruct (getindex codes i) as [code|]; [|reflexivity]. cbn [mbind result_bind].
  destruct (WEATHER_CODE_ICONS_get code "01d") as [icon|]; [|reflexivity].
  cbn [mbind result_bind].
  destruct (getitem daily "temperature_2m_max") as [highs|]; [|reflexivity].
  cbn [mbind result_bind]. rewrite getindex_truncate_list by exact Hi.
  destruct (getindex highs i) as [high|]; [|reflexivity]. cbn [mbind result_bind].
  destruct (py_int int_of_str high) as [th|]; [|reflexivity]. cbn [mbind result_bind].
  destruct (getitem daily "temperature_2m_min") as [lows|]; [|reflexivity].
  cbn [mbind result_bind]. by rewrite getindex_truncate_list by exact Hi.
Qed.

Lemma hourly_hour_truncate (k : nat) (hourly : value) (tz : tzinfo) (i : nat) :
  (i < k)%nat →
  hourly_hour (truncate_series k hourly) tz i = hourly_hour hourly tz i.
Proof.
  intros Hi. unfold hourly_hour. rewrite !getitem_truncate_series.
  destruct (getitem hourly "time") as [times|]; [|reflexivity].
  cbn [mbind result_bind]. rewrite getindex_truncate_list by exact Hi.
  destruct (getindex times i) as [t|]; [|reflexivity]. cbn [mbind result_bind].
  destruct (localtime t tz) as [dt|]; [|reflexivity]. cbn [mbind result_bind].
  destruct (getitem hourly "temperature_2m") as [temps|]; [|reflexivity].
  cbn [mbind result_bind]. rewrite getindex_truncate_list by exact Hi.
  destruct (getindex temps i) as [temp|]; [|reflexivity]. cbn [mbind result_bind].
  destruct (py_round temp) as [r|]; [|reflexivity]. cbn [mbind result_bind].
  destruct (getitem hourly "rain") as [rains|]; [|reflexivity].
  cbn [mbind result_bind]. by rewrite getindex_truncate_list by exact Hi.
Qed.

(** X11: [parse_forecast] reads the first six entries of the daily lists and
    nothing after them: cutting every list of the daily document after six
    entries or more changes neither the list it returns nor the exception it
    raises. *)
Theorem parse_forecast_reads_six_days (daily : value) (tz : tzinfo) (k : nat) :
  parse_forecast (truncate_series (6 + k) daily) tz = parse_forecast daily tz.
Proof.
  unfold parse_forecast. rewrite getitem_truncate_series.
  destruct (getitem daily "time") as [times|]; [|reflexivity].
  cbn [mbind result_bind].
  assert ((∃ n n', py_len (truncate_list (6 + k) times) = Ok n' ∧ py_len times = Ok n
                   ∧ Nat.min n' 6 = Nat.min n 6)
          ∨ ∃ e, py_len (truncate_list (6 + k) times) = Raise e
                 ∧ py_len times = Raise e) as Hlen.
  { destruct times as [| | | |s|l|d]; cbn [truncate_list py_len];
      try (right; exists TypeError; by split).
    - left. exists (String.length s), (String.length s). by repeat split.
    - left. exists (length l), (length (take (6 + k) l)).
      repeat split. rewrite length_take. lia.
    - left. exists (size d), (size d). by repeat split. }
  destruct Hlen as [(n & n' & -> & -> & Hmin)|(e & -> & ->)]; [|reflexivity].
  cbn [mbind result_bind]. rewrite Hmin, !for_range_append.
  apply mapR_ext. intros i Hi. apply forecast_day_truncate.
  apply elem_of_seq in Hi. lia.
Qed.

(** X12: [parse_hourly] reads the first twenty-four entries of the hourly
    lists and nothing after them. *)
Theorem parse_hourly_reads_24_hours (hourly : value) (tz : tzinfo) (k : nat) :
  parse_hourly (truncate_series (24 + k) hourly) tz = parse_hourly hourly tz.
Proof.
  rewrite !parse_hourly_mapR.
  apply mapR_ext. intros i Hi. apply hourly_hour_truncate.
  apply elem_of_seq in Hi. lia.
Qed.

(** X13: with no day or one day in [daily.time], [parse_forecast] returns
    the empty list and looks at no other member of the daily document; when
    the daily document has no [time] member it raises [KeyError], and when
    it is no dictionary, [TypeError]. *)
Theorem parse_forecast_short_input (tz : tzinfo) :
  (∀ (daily times : value) (n : nat),
     getitem daily "time" = Ok times → py_len times = Ok n → (n ≤ 1)%nat →
     parse_forecast daily tz = Ok []) ∧
  (∀ d : gmap string value, d !! "time" = None →
     parse_forecast (VDict d) tz = Raise KeyError) ∧
  (∀ daily : value, (∀ d, daily ≠ VDict d) → parse_forecast daily tz = Raise TypeError).
Proof.
  split; [|split].
  - intros daily times n Ht Hn Hle. rewrite (parse_forecast_mapR _ _ _ _ Ht Hn).
    replace (Nat.min n 6 - 1)%nat with 0%nat by lia. reflexivity.
  - intros d Hd. unfold parse_forecast. simpl. by rewrite Hd.
  - intros daily Hd. unfold parse_forecast.
    destruct daily; try reflexivity. by destruct (Hd d).
Qed.

(** X14: [parse_hourly] stops at the first hour that fails and raises what
    that hour raised; so [KeyError] for a document with no [time] member, and
    [IndexError] when the [time] list ends before hour 24 and the hours
    before its end are well formed. *)
Theorem parse_hourly_first_failure (hourly : value) (tz : tzinfo) :
  (∀ (i : nat) (e : exn),
     (i < 24)%nat → (∀ j, (j < i)%nat → ∃ x, hourly_hour hourly tz j = Ok x) →
     hourly_hour hourly tz i = Raise e →
     parse_hourly hourly tz = Raise e) ∧
  (∀ d, hourly = VDict d → d !! "time" = None → parse_hourly hourly tz = Raise KeyError) ∧
  (∀ l, getitem hourly "time" = Ok (VList l) → (length l < 24)%nat →
        (∀ j, (j < length l)%nat → hour_well_formed hourly tz j) →
        parse_hourly hourly tz = Raise IndexError).
Proof.
  assert (∀ i e,
            (i < 24)%nat → (∀ j, (j < i)%nat → ∃ x, hourly_hour hourly tz j = Ok x) →
            hourly_hour hourly tz i = Raise e →
            parse_hourly hourly tz = Raise e) as Hfirst.
  { intros i e Hi Hbefore Hfail. rewrite parse_hourly_mapR.
    apply (mapR_seq_first_Raise _ 24 0 i e); [lia| |exact Hfail].
    intros j Hj. apply Hbefore. lia. }
  split; [exact Hfirst|split].
  - intros d -> Hd. apply (Hfirst 0%nat); [lia|intros j Hj; lia|].
    unfold hourly_hour. simpl. by rewrite Hd.
  - intros l Hl Hlen Hwf. apply (Hfirst (length l)); [exact Hlen| |].
    + intros j Hj. by apply hourly_hour_total, Hwf.
    + unfold hourly_hour. rewrite Hl. cbn [mbind result_bind getindex].
      by rewrite lookup_ge_None_2.
Qed.

End Reads.

(** ** The icons *)

Lemma WEATHER_CODE_ICONS_entries :
  map_Forall (λ (z : Z) (icon : string), 0 ≤ z ≤ 99 ∧ icon ∈ ICON_IDS) WEATHER_CODE_ICONS.
Proof. apply (bool_decide_unpack _). vm_compute. exact I. Qed.

Lemma Ok_inj {A} (a b : A) : Ok a = Ok b → a = b.
Proof. congruence. Qed.

Lemma default_icon_known : "01d" ∈ ICON_IDS.
Proof. apply list_elem_of_here. Qed.

Lemma table_icon_known (z : Z) (icon : string) :
  default "01d" (WEATHER_CODE_ICONS !! z) = icon → icon ∈ ICON_IDS.
Proof.
  intros <-. pose proof (WEATHER_CODE_ICONS_entries z) as Hall.
  destruct (WEATHER_CODE_ICONS !! z) as [icon|].
  - exact (proj2 (Hall icon eq_refl)).
  - apply default_icon_known.
Qed.

(** X15: every code of the table lies in 0..99 and every icon it names is
    one of nine files; so whatever object the forecast sends as a weather
    code, the icon that the lookup gives, default included, is one of them. *)
Theorem weather_icon_is_known :
  (∀ (z : Z) (icon : string), WEATHER_CODE_ICONS !! z = Some icon →
     0 ≤ z ≤ 99 ∧ icon ∈ ICON_IDS) ∧
  (∀ (code : value) (icon : string), WEATHER_CODE_ICONS_get code "01d" = Ok icon →
     icon ∈ ICON_IDS).
Proof.
  split; [exact WEATHER_CODE_ICONS_entries|].
  intros code icon. unfold WEATHER_CODE_ICONS_get.
  destruct code as [|b|z|[neg num den| |]|s|l|d].
  - intros <-%Ok_inj. apply default_icon_known.
  - intros Hi%Ok_inj. exact (table_icon_known _ _ Hi).
  - intros Hi%Ok_inj. exact (table_icon_known _ _ Hi).
  - destruct (num mod N.pos den =? 0)%N; intros Hi%Ok_inj.
    + exact (table_icon_known _ _ Hi).
    + rewrite <- Hi. apply default_icon_known.
  - intros <-%Ok_inj. apply default_icon_known.
  - intros <-%Ok_inj. apply default_icon_known.
  - intros <-%Ok_inj. apply default_icon_known.
  - intros Hi. discriminate Hi.
  - intros Hi. discriminate Hi.
Qed.

(** ** The labels of the hours *)

Section Hour_labels.
Context `{Externals}.

(** X16: the label of an hour of the hourly forecast tells the hour of the
    day: two converted timestamps with the same label have the same hour.
    (The label is the 12-hour clock without padding, a space, AM or PM.) *)
Theorem hour_label_tells_the_hour :
  (∀ dt1 dt2 : datetime,
     0 ≤ dt_hour dt1 < 24 → 0 ≤ dt_hour dt2 < 24 →
     hour_label dt1 = hour_label dt2 → dt_hour dt1 = dt_hour dt2) ∧
  (∀ (hourly : value) (tz : tzinfo) (i : nat) (e : hourly_entry),
     hourly_hour hourly tz i = Ok e →
     ∃ times t dt, getitem hourly "time" = Ok times ∧ getindex times i = Ok t
                   ∧ localtime t tz = Ok dt ∧ h_time e = hour_label dt).
Proof.
  split.
  - intros dt1 dt2 H1 H2. unfold hour_label, strftime_I_nopad, strftime_p, hour12.
    assert (∃ n : nat, (n < 24)%nat ∧ dt_hour dt1 = Z.of_nat n) as (n1 & Hn1 & ->)
      by (exists (Z.to_nat (dt_hour dt1)); lia).
    assert (∃ n : nat, (n < 24)%nat ∧ dt_hour dt2 = Z.of_nat n) as (n2 & Hn2 & ->)
      by (exists (Z.to_nat (dt_hour dt2)); lia).
    do 24 (destruct n1 as [|n1];
           [do 24 (destruct n2 as [|n2];
                   [intros Heq; first [reflexivity|vm_compute in Heq; discriminate Heq]|]);
            lia|]).
    lia.
  - intros hourly tz i e He.
    destruct (hourly_hour_Ok _ _ _ _ He)
      as (times & t & dt & ? & ? & ? & ? & Ht & Hti & Hdt & _ & _ & _ & _ & _ & Htime & _).
    exists times, t, dt. repeat split; assumption.
Qed.

End Hour_labels.

(** ** The settings template *)

Lemma generate_settings_template_lookup (super_template : gmap string value) :
  generate_settings_template super_template !! "style_settings" = Some (VBool true) ∧
  (∀ key, key ≠ "style_settings" →
          generate_settings_template super_template !! key = super_template !! key) ∧
  generate_settings_template (generate_settings_template super_template)
  = generate_settings_template super_template.
Proof.
  unfold generate_settings_template. split; [apply lookup_insert_eq|split].
  - intros key Hkey. by apply lookup_insert_ne.
  - apply insert_insert_eq.
Qed.

(** ** More runs of the demonstration worlds *)

(** An upright device: the renderer gets 480 by 800. *)
Lemma generate_image_render_call_witness :
  [480; 800] = (if eq_str (get_config demo_vertical "orientation" VNone) "vertical"
                then reverse (get_resolution demo_vertical)
                else get_resolution demo_vertical) ∧
  plugin_settings (@set_plugin_settings demo_params demo_settings) = Some demo_settings.
Proof.
  destruct (@generate_image_render_call demo_air_down demo_settings demo_vertical
              [480; 800] "weather.html" "weather.css"
              (@set_plugin_settings demo_params demo_settings))
    as (Hdims & _ & _ & Hsettings & _).
  - vm_compute. do 3 apply list_elem_of_further. apply list_elem_of_here.
  - split; [exact Hdims|exact Hsettings].
Defined.

(** The forecast names Europe/Berlin: the timezone of the device is not used. *)
Lemma api_timezone_takes_precedence_witness :
  @generate_image demo_air_down demo_settings demo_vertical
  = @generate_image demo_air_down demo_settings demo_vertical_paris.
Proof.
  apply (@api_timezone_takes_precedence demo_air_down demo_settings
           demo_vertical demo_vertical_paris
           {| ok := true; content := "{...}"; json := Some Demo.forecast_body |}
           (list_to_map [("latitude", Demo.float 5252 100);
                         ("longitude", Demo.float 13419998 1000000);
                         ("timezone", VStr "Europe/Berlin");
                         ("current", Demo.current_body); ("daily", Demo.daily_body);
                         ("hourly", Demo.hourly_body)])
           (VStr "Europe/Berlin")).
  - vm_compute. reflexivity.
  - reflexivity.
  - reflexivity.
  - vm_compute. reflexivity.
  - reflexivity.
  - reflexivity.
Defined.

(** An AQI of 20.5 is shown as 20 with the label of 20.5, which is not the
    label of 20. *)
Lemma air_quality_label_of_raw_value_witness :
  @air_quality_point demo_all_up demo_fractional_air = Ok demo_fractional_point ∧
  get_aqi_description (VInt 20) ≠ Ok (unit demo_fractional_point).
Proof.
  assert (@air_quality_point demo_all_up demo_fractional_air = Ok demo_fractional_point)
    as Hp by (vm_compute; reflexivity).
  split; [exact Hp|].
  destruct (@air_quality_label_of_raw_value demo_all_up demo_fractional_air
              demo_fractional_point Hp)
    as (hourly & series & aqi & m & Hh & Hs & Ha & _ & Hm & _ & _ & Hfloat).
  vm_compute in Hh. apply Ok_inj in Hh. subst hourly.
  vm_compute in Hs. apply Ok_inj in Hs. subst series.
  vm_compute in Ha. apply Ok_inj in Ha. subst aqi.
  cbn [measurement demo_fractional_point] in Hm. injection Hm as <-.
  destruct (Hfloat false 41%N 2%positive eq_refl) as [_ Hiff].
  intros Heq. apply Hiff in Heq. apply Heq.
  split; [reflexivity|]. split; [discriminate|]. left. reflexivity.
Defined.

(** With an AQI of 45 the demonstration has eight points. *)
Lemma data_points_shape_witness :
  label <$> take 7 (data_points demo_params ++ [{| label := "Air Quality";
                                                    measurement := VInt 45;
                                                    unit := "Moderate";
                                                    icon := "/usr/local/inkypi/src/plugins/weather_custom/icons/aqi.png" |}])
  = ["Sunrise"; "Sunset"; "Wind"; "Humidity"; "Pressure"; "UV Index"; "Rain"].
Proof.
  destruct (@data_points_shape demo_all_up Demo.current_body Demo.daily_body
              "Europe/Berlin" (Demo.air_body (VInt 45))
              (data_points demo_params
               ++ [{| label := "Air Quality"; measurement := VInt 45; unit := "Moderate";
                      icon := "/usr/local/inkypi/src/plugins/weather_custom/icons/aqi.png" |}]))
    as (? & ? & ? & ? & ? & ? & ? & Hlabels & _).
  - vm_compute. reflexivity.
  - exact Hlabels.
Defined.

(** Twenty-three well-formed hours: the twenty-fourth raises [IndexError]. *)
Lemma parse_hourly_first_failure_witness :
  @parse_hourly demo_all_up demo_short_hourly "Europe/Berlin" = Raise IndexError.
Proof.
  apply (proj2 (proj2 (@parse_hourly_first_failure demo_all_up demo_short_hourly
                         "Europe/Berlin"))
           (Demo.hour_stamp <$> seq 0 23)).
  - vm_compute. reflexivity.
  - vm_compute. lia.
  - intros j Hj. change (length (Demo.hour_stamp <$> seq 0 23)) with 23%nat in Hj.
    do 23 (destruct j as [|j]; [do 8 eexists; repeat split; vm_compute; reflexivity|]).
    lia.
Defined.

(** One day only, and no other member: the forecast list is empty. *)
Lemma parse_forecast_short_input_witness :
  @parse_forecast demo_all_up (Demo.obj [("time", VList [VStr "2024-01-05"])])
    "Europe/Berlin" = Ok [].
Proof.
  apply (proj1 (@parse_forecast_short_input demo_all_up "Europe/Berlin")
           (Demo.obj [("time", VList [VStr "2024-01-05"])])
           (VList [VStr "2024-01-05"]) 1%nat).
  - vm_compute. reflexivity.
  - reflexivity.
  - lia.
Defined.

Example demo_truncated_forecast :
  @parse_forecast demo_all_up (truncate_series 6 Demo.daily_body) "Europe/Berlin"
  = Ok (forecast demo_params).
Proof. vm_compute. reflexivity. Qed.

Section Members.
Context `{Externals}.

(** ** The members that [parse_weather_data] needs *)

Ltac step_lift_in H :=
  rewrite M_bind_lift_outcome in H;
  match type of H with
  | match ?r with Ok _ => _ | Raise _ => _ end = Ok _ =>
      destruct r eqn:?; [|discriminate H]
  end.

Lemma parse_weather_data_fields (data air_quality : value) (tz : tzinfo) (p : template_params) :
  outcome (parse_weather_data data air_quality tz) = Ok p →
  ∃ current daily hourly time dt temperature t,
    getitem data "current" = Ok current ∧
    getitem data "daily" = Ok daily ∧
    getitem data "hourly" = Ok hourly ∧
    is_Some (match getitem data "latitude" with Ok v => Some v | Raise _ => None end) ∧
    is_Some (match getitem data "longitude" with Ok v => Some v | Raise _ => None end) ∧
    getitem current "time" = Ok time ∧ localtime time tz = Ok dt ∧
    getitem current "temperature_2m" = Ok temperature ∧ py_round temperature = Ok t ∧
    current_date p = strftime_A dt +:+ ", " +:+ strftime_B dt +:+ " " +:+ strftime_d dt ∧
    current_temperature p = str_int t ∧
    parse_forecast daily tz = Ok (forecast p) ∧
    parse_hourly hourly tz = Ok (hourly_forecast p) ∧
    outcome (parse_data_points current daily tz air_quality) = Ok (data_points p).
Proof.
  unfold parse_weather_data. intros Hp.
  repeat step_lift_in Hp.
  rewrite M_bind_outcome in Hp.
  destruct (outcome (parse_data_points _ _ _ _)) as [dps|] eqn:Hdps; [|discriminate Hp].
  unfold mret, M_ret in Hp. cbn [outcome] in Hp. injection Hp as <-.
  cbn [current_date current_temperature forecast hourly_forecast data_points].
  do 7 eexists.
  repeat match goal with |- _ ∧ _ => split end; try eassumption; try reflexivity; eauto.
Qed.

(** X17: [parse_weather_data] returns only for a forecast document that is a
    dictionary with the members [current], [daily], [hourly], [latitude] and
    [longitude]: when one of them is absent it raises, whatever the
    air-quality document is, and so does it for a document that is no
    dictionary.  The current temperature it returns is the decimal text of
    the temperature rounded to a nearest integer. *)
Theorem parse_weather_data_needs_members (air_quality : value) (tz : tzinfo) :
  (∀ (d : gmap string value) (key : string),
     key ∈ ["current"; "daily"; "hourly"; "latitude"; "longitude"] →
     d !! key = None →
     ∃ e, outcome (parse_weather_data (VDict d) air_quality tz) = Raise e) ∧
  (∀ data : value, (∀ d, data ≠ VDict d) →
     parse_weather_data data air_quality tz = MkM [] (Raise TypeError)) ∧
  (∀ (data : value) (p : template_params),
     outcome (parse_weather_data data air_quality tz) = Ok p →
     ∃ current temperature t q,
       getitem data "current" = Ok current ∧
       getitem current "temperature_2m" = Ok temperature ∧
       numeric_value temperature = Some q ∧ nearest q t ∧
       current_temperature p = str_int t).
Proof.
  split; [|split].
  - intros d key Hkey Hd.
    destruct (outcome (parse_weather_data (VDict d) air_quality tz)) as [p|e] eqn:Hp;
      [exfalso|eauto].
    destruct (parse_weather_data_fields _ _ _ _ Hp)
      as (current & daily & hourly & ? & ? & ? & ?
          & Hc & Hda & Hh & Hla & Hlo & _).
    cbn [getitem] in Hc, Hda, Hh, Hla, Hlo.
    repeat (apply elem_of_cons in Hkey as [-> | Hkey];
            [rewrite Hd in *; first [discriminate | by destruct Hla | by destruct Hlo]|]).
    by apply elem_of_nil in Hkey.
  - intros data Hd. unfold parse_weather_data.
    destruct data; try reflexivity. by destruct (Hd d).
  - intros data p Hp.
    destruct (parse_weather_data_fields _ _ _ _ Hp)
      as (current & daily & hourly & time & dt & temperature & t
          & Hc & _ & _ & _ & _ & _ & _ & Ht & Hr & _ & Hct & _).
    assert (∃ q, numeric_value temperature = Some q) as [q Hq].
    { destruct temperature as [|b|z|[neg num den| |]|s|l|d]; simpl in Hr;
        try discriminate Hr; simpl; eauto. }
    exists current, temperature, t, q. repeat split; try assumption.
    eapply py_round_nearest; eassumption.
Qed.

End Members.
